(** * dban: key-value storage and cursor-based streamer

    A shallow embedding of the Go package [dban] (files [kv.go] and
    [streamer.go]) together with the properties of its cursor protocol.

    - Go's [(value, error)] results are pairs whose second component is an
      [option error] ([None] is Go's [nil] error).
    - [uint64] and [int64] values are integers in [Z], the wrap-around of
      [uint64] arithmetic is written out.
    - Go strings are byte strings: [string] of the standard library.
    - The [key_value] table is a finite map from keys to values.  The
      database client can fail: every statement consumes one entry of a
      script of outcomes carried by the database state.
    - Everything the package does to its collaborators (statements sent to
      the database, pages asked of the source, log lines, handler calls) is
      appended to a trace, in the order in which it happens. *)

From Stdlib Require Import ZArith Lia List String Ascii Bool.
From stdpp Require Import base option gmap strings list.

Local Open Scope string_scope.
Local Open Scope list_scope.
Local Open Scope Z_scope.

(** ** Errors *)

(** The two causes a [strconv.NumError] can carry. *)
Inductive NumErrCause : Type :=
| ErrSyntax
| ErrRange.

(** Values of [logan.F] fields. *)
Inductive FieldValue : Type :=
| FString (s : string)
| FInt (z : Z).

(** [logan.F]: a map of fields attached to an error. *)
Definition F : Type := list (string * FieldValue).

(** Go [error] values that occur in the package: [sql.ErrNoRows], any other
    failure reported by the database client, an arbitrary error of the
    paginated source or of the handler ([ErrOther]), [strconv.NumError],
    [errors.New], [errors.Wrap] and [errors.From]. *)
Inductive error : Type :=
| ErrNoRows
| ErrDatabase (msg : string)
| ErrOther (msg : string)
| NumError (func num : string) (cause : NumErrCause)
| ErrNew (msg : string)
| ErrWrap (inner : error) (msg : string) (fields : F)
| ErrFrom (inner : error) (fields : F).

Module errors.
Definition New (msg : string) : error := ErrNew msg.
Definition Wrap (err : error) (msg : string) (fields : F) : error :=
  ErrWrap err msg fields.
Definition From (err : error) (fields : F) : error := ErrFrom err fields.
End errors.

(** ** [strconv]: the conversions the package uses

    [strconv.ParseUint], [strconv.ParseInt] and [strconv.FormatUint] of the Go
    standard library, at the arguments of the call sites: base 10 and bit
    size 64. *)
Module strconv.

Definition base : Z := 10.
Definition bitSize : Z := 64.
Definition maxUint64 : Z := 2 ^ 64 - 1.

(** The numeric value of a byte of a string, and the byte of a value. *)
Definition byte_val (c : ascii) : Z := Z.of_N (N_of_ascii c).
Definition byte_chr (z : Z) : ascii := ascii_of_N (Z.to_N z).

(** [lower(c)]: [c | ('x' - 'X')]. *)
Definition lower (c : ascii) : Z := Z.lor (byte_val c) 32.

Definition syntaxError (fn str : string) : error := NumError fn str ErrSyntax.
Definition rangeError (fn str : string) : error := NumError fn str ErrRange.

(** The digit loop of [ParseUint]: [n] is the value read so far, [s0] the
    whole input (for the error), [s] the bytes still to read. *)
Fixpoint parseDigits (s0 : string) (n : Z) (s : string) : Z * option error :=
  match s with
  | EmptyString => (n, None)
  | String c rest =>
      let cutoff := maxUint64 / 10 + 1 in
      let maxVal := 2 ^ bitSize - 1 in
      let c' := byte_val c in
      let d :=
        if (48 <=? c') && (c' <=? 57) then Some (c' - 48)
        else if (97 <=? lower c) && (lower c <=? 122) then Some (lower c - 97 + 10)
        else None in
      match d with
      | None => (0, Some (syntaxError "ParseUint" s0))
      | Some d =>
          if base <=? d then (0, Some (syntaxError "ParseUint" s0))
          else if cutoff <=? n then (maxVal, Some (rangeError "ParseUint" s0))
          else
            let n := n * base in
            let n1 := (n + d) mod 2 ^ 64 in
            if (n1 <? n) || (maxVal <? n1)
            then (maxVal, Some (rangeError "ParseUint" s0))
            else parseDigits s0 n1 rest
      end
  end.

(** [ParseUint(s, 10, 64)]. *)
Definition ParseUint (s : string) : Z * option error :=
  match s with
  | EmptyString => (0, Some (syntaxError "ParseUint" s))
  | _ => parseDigits s 0 s
  end.

(** [ParseInt(s, 10, 64)]. *)
Definition ParseInt (s0 : string) : Z * option error :=
  match s0 with
  | EmptyString => (0, Some (syntaxError "ParseInt" s0))
  | String c rest =>
      let '(neg, s) :=
        if Ascii.eqb c "+" then (false, rest)
        else if Ascii.eqb c "-" then (true, rest)
        else (false, s0) in
      let '(un, err) := ParseUint s in
      match err with
      | Some (NumError _ _ ErrSyntax) => (0, Some (syntaxError "ParseInt" s0))
      | _ =>
          let cutoff := 2 ^ (bitSize - 1) in
          if negb neg && (cutoff <=? un)
          then (cutoff - 1, Some (rangeError "ParseInt" s0))
          else if neg && (cutoff <? un)
          then (- cutoff, Some (rangeError "ParseInt" s0))
          else (if neg then - un else un, None)
      end
  end.

(** The digit loop of [FormatUint]: the digits of [u] are written in front
    of [a], least significant first.  [buf] is the room left in the
    buffer; the 20 digits of the largest [uint64] fit. *)
Fixpoint formatBits (buf : nat) (u : Z) (a : string) : string :=
  match buf with
  | O => a
  | S buf =>
      if 10 <=? u
      then formatBits buf (u / 10) (String (byte_chr (48 + u mod 10)) a)
      else String (byte_chr (48 + u)) a
  end.

(** [FormatUint(i, 10)]. *)
Definition FormatUint (i : Z) : string := formatBits 20 i EmptyString.

End strconv.

(** ** The database client ([pgdb]) and the world around the package *)

Module pgdb.
(** [pgdb.OffsetPageParams], the fields the package sets. *)
Record OffsetPageParams : Type := {
  Limit : Z;
  PageNumber : Z;
}.
End pgdb.

(** [KeyValue] is an object stored in the key value storage. *)
Record KeyValue : Type := {
  Key : string;
  Value : string;
}.

(** [context.Context]: the background context or one supplied by the caller. *)
Inductive Context : Type :=
| Background
| Supplied (name : string).

(** [*logan.Entry] when it is not [nil]. *)
Inductive Entry : Type := LogEntry.

(** The result of a function that can panic. *)
Inductive outcome (A : Type) : Type :=
| Returned (a : A)
| Panicked (e : error).
Arguments Returned {A} a.
Arguments Panicked {A} e.

Section Dban.

(** [T] is the type of the streamed entities, [E] the state of everything
    outside the key value table that the paginated source and the handler
    can read and change. *)
Context {T E : Type}.

(** What the package does to its collaborators, as they see it. *)
Inductive Event : Type :=
| EvQuery (key : string) (forUpdate : bool)
| EvExec (kv : KeyValue)
| EvSelect (pageParams : pgdb.OffsetPageParams)
| EvWarn (msg : string)
| EvHandle (ctx : Context) (t : T).

(** The world: the rows of table [key_value], the outcomes of the
    statements still to come ([None]: the statement is executed,
    [Some msg]: the client reports the failure [msg] and the table is
    unchanged; after the end of the script every statement is executed),
    the outside state, and the trace so far. *)
Record World : Type := {
  table : gmap string string;
  outcomes : list (option string);
  env : E;
  trace : list Event;
}.

Definition record (ev : Event) (w : World) : World :=
  {| table := table w; outcomes := outcomes w; env := env w;
     trace := trace w ++ [ev] |}.

(** The outcome of the next statement, and the world once it is consumed. *)
Definition next_outcome (w : World) : option string * World :=
  match outcomes w with
  | [] => (None, w)
  | o :: os =>
      (o, {| table := table w; outcomes := os; env := env w; trace := trace w |})
  end.

(** [db.Get(&value, SELECT * FROM key_value WHERE key = $1 [FOR UPDATE])]:
    the row read into [value] and the error.  No row is [sql.ErrNoRows]. *)
Definition db_Get (key : string) (forUpdate : bool) (w : World)
  : (KeyValue * option error) * World :=
  let zero := {| Key := EmptyString; Value := EmptyString |} in
  let '(o, w) := next_outcome (record (EvQuery key forUpdate) w) in
  match o with
  | Some msg => ((zero, Some (ErrDatabase msg)), w)
  | None =>
      match table w !! key with
      | Some v => (({| Key := key; Value := v |}, None), w)
      | None => ((zero, Some ErrNoRows), w)
      end
  end.

(** [db.Exec(INSERT INTO key_value (key,value) VALUES ($1,$2)
    ON CONFLICT (key) DO UPDATE SET value = EXCLUDED.value)]. *)
Definition db_Exec (kv : KeyValue) (w : World) : option error * World :=
  let '(o, w) := next_outcome (record (EvExec kv) w) in
  match o with
  | Some msg => (Some (ErrDatabase msg), w)
  | None =>
      (None, {| table := <[Key kv := Value kv]> (table w);
                outcomes := outcomes w; env := env w; trace := trace w |})
  end.

(** ** [kv.go]: the key value querier *)

Definition Upsert (kv : KeyValue) (w : World) : option error * World :=
  db_Exec kv w.

Definition get (key : string) (forUpdate : bool) (w : World)
  : (option KeyValue * option error) * World :=
  let '((value, err), w) := db_Get key forUpdate w in
  match err with
  | Some ErrNoRows => ((None, None), w)
  | _ => ((Some value, err), w)
  end.

Definition Get (key : string) (w : World) := get key false w.

Definition LockingGet (key : string) (w : World) := get key true w.

Definition MustGet (key : string) (w : World)
  : outcome (option KeyValue) * World :=
  let '((value, err), w) := Get key w in
  match err with
  | Some err =>
      (Panicked (errors.Wrap err "failed to get value by key"
                   [("key", FString key)]), w)
  | None => (Returned value, w)
  end.

Definition MustLockingGet (key : string) (w : World)
  : outcome (option KeyValue) * World :=
  let '((value, err), w) := LockingGet key w in
  match err with
  | Some err =>
      (Panicked (errors.Wrap err "failed to locking get value by key"
                   [("key", FString key)]), w)
  | None => (Returned value, w)
  end.

(** ** [streamer.go] *)

Definition defaultBatchSize : Z := 15.

(** [Streamable] is an interface that an object (for instance, a database
    querier) must implement in order to be able to stream data. *)
Record Streamable : Type := {
  SelectWithPageParams :
    pgdb.OffsetPageParams -> E -> (list T * option error) * E;
}.

(** [StreamerInitParams].  The key value querier of a streamer is the
    querier above, on the table of the world. *)
Record StreamerInitParams : Type := {
  init_Stream : Streamable;
  init_KeyValueKey : string;
  init_BatchSize : option Z;
  init_Log : option Entry;
  init_Ctx : option Context;
}.

Record streamer : Type := {
  Stream : Streamable;
  KeyValueKey : string;
  BatchSize : Z;
  Log : option Entry;
  Ctx : Context;
}.

Definition NewStreamer (initParams : StreamerInitParams) : streamer :=
  let batchSize :=
    match init_BatchSize initParams with
    | Some b => b
    | None => defaultBatchSize
    end in
  let ctx :=
    match init_Ctx initParams with
    | Some c => c
    | None => Background
    end in
  {| Stream := init_Stream initParams;
     KeyValueKey := init_KeyValueKey initParams;
     BatchSize := batchSize;
     Log := init_Log initParams;
     Ctx := ctx |}.

Definition Select (s : streamer) (pageNumber : Z) (w : World)
  : (list T * option error) * World :=
  let pageParams :=
    {| pgdb.Limit := BatchSize s; pgdb.PageNumber := pageNumber |} in
  let w := record (EvSelect pageParams) w in
  let '(res, e) := SelectWithPageParams (Stream s) pageParams (env w) in
  (res, {| table := table w; outcomes := outcomes w; env := e;
           trace := trace w |}).

(** [s.Log.Warn(msg)] behind the test [s.Log != nil]. *)
Definition Warn (s : streamer) (msg : string) (w : World) : World :=
  match Log s with
  | Some _ => record (EvWarn msg) w
  | None => w
  end.

(** [GetCurrentPage] returns a page we are at while streaming through data. *)
Definition GetCurrentPage (s : streamer) (w : World)
  : (Z * option error) * World :=
  let '((pageKV, err), w) := LockingGet (KeyValueKey s) w in
  match err with
  | Some err =>
      ((0, Some (errors.Wrap err "failed to get current cursor value"
                   [("key", FString (KeyValueKey s))])), w)
  | None =>
      let pageKV :=
        match pageKV with
        | Some kv => kv
        | None => {| Key := KeyValueKey s; Value := "0" |}
        end in
      let '(page, err) := strconv.ParseInt (Value pageKV) in
      match err with
      | Some err =>
          ((0, Some (errors.Wrap err "failed to parse cursor"
                       [("kv_cursor", FString (Value pageKV))])), w)
      | None =>
          if page <? 0
          then ((0, Some (errors.From (errors.New "cursor cannot be negative")
                            [("cursor", FInt page)])), w)
          else ((page, None), w)
      end
  end.

(** [FormList] returns a batch of entities and turns to the next available
    page.  The function calls itself after a reset of the cursor; [depth]
    bounds the number of nested calls, and the result is [None] when the
    bound is reached. *)
Fixpoint FormList (depth : nat) (s : streamer) (w : World)
  : option ((list T * option error) * World) :=
  match depth with
  | O => None
  | S depth =>
      let '((pageNumber, err), w) := GetCurrentPage s w in
      match err with
      | Some err =>
          Some (([], Some (errors.Wrap err "failed to get current page number" [])), w)
      | None =>
          let '((entities, err), w) := Select s pageNumber w in
          match err with
          | Some err =>
              Some (([], Some (errors.Wrap err "failed to select entities" [])), w)
          | None =>
              if (Nat.eqb (length entities) 0) && (pageNumber =? 0)
              then Some (([], None), Warn s "Entities list is empty" w)
              else if Nat.eqb (length entities) 0
              then
                let '(err, w) :=
                  Upsert {| Key := KeyValueKey s; Value := "0" |} w in
                match err with
                | Some err =>
                    Some (([], Some (errors.Wrap err "failed to upsert last page" [])), w)
                | None => FormList depth s w
                end
              else
                let '(err, w) :=
                  Upsert {| Key := KeyValueKey s;
                            Value := strconv.FormatUint ((pageNumber + 1) mod 2 ^ 64) |} w in
                match err with
                | Some err =>
                    Some (([], Some (errors.Wrap err "failed to update last processed entities" [])), w)
                | None => Some ((entities, None), w)
                end
          end
      end
  end.

(** A handler: [fn(ctx, t)], which can change the outside state. *)
Definition Handler : Type := Context -> T -> E -> option error * E.

Definition call (fn : Handler) (ctx : Context) (t : T) (w : World)
  : option error * World :=
  let w := record (EvHandle ctx t) w in
  let '(err, e) := fn ctx t (env w) in
  (err, {| table := table w; outcomes := outcomes w; env := e;
           trace := trace w |}).

(** The loop [for _, entity := range entities] of [FormListAndProcess]. *)
Fixpoint process (s : streamer) (fn : Handler) (entities : list T) (w : World)
  : option error * World :=
  match entities with
  | [] => (None, w)
  | entity :: entities =>
      let '(err, w) := call fn (Ctx s) entity w in
      match err with
      | Some err => (Some (errors.Wrap err "failed to process an entity" []), w)
      | None => process s fn entities w
      end
  end.

(** [FormListAndProcess] forms a list according to [FormList] and applies
    the function given as an argument. *)
Definition FormListAndProcess (depth : nat) (s : streamer) (fn : Handler)
  (w : World) : option (option error * World) :=
  match FormList depth s w with
  | None => None
  | Some ((entities, err), w) =>
      match err with
      | Some err =>
          Some (Some (errors.Wrap err "failed to form a list of entities" []), w)
      | None => Some (process s fn entities w)
      end
  end.

End Dban.

Arguments Event : clear implicits.
Arguments World : clear implicits.
Arguments Streamable : clear implicits.
Arguments StreamerInitParams : clear implicits.
Arguments streamer : clear implicits.
Arguments Handler : clear implicits.

(** ** The earlier revision of [streamer.go]

    The exported struct [Streamer] with the fields [Stream], [KeyValueQ],
    [KeyQ], [BatchSize] and [Log], without a context and without
    [FormListAndProcess].  Its [FormList] logs through [s.Log] without a
    [nil] test: the logger is taken to be present. *)
Module Legacy.
Section Legacy.

Context {T E : Type}.

Record Streamer : Type := {
  Stream : Streamable T E;
  KeyQ : string;
  BatchSize : Z;
  Log : Entry;
}.

Definition Select (s : Streamer) (pageNumber : Z) (w : World T E)
  : (list T * option error) * World T E :=
  let pageParams :=
    {| pgdb.Limit := BatchSize s; pgdb.PageNumber := pageNumber |} in
  let w := record (EvSelect pageParams) w in
  let '(res, e) := SelectWithPageParams (Stream s) pageParams (env w) in
  (res, {| table := table w; outcomes := outcomes w; env := e;
           trace := trace w |}).

Definition GetCurrentPage (s : Streamer) (w : World T E)
  : (Z * option error) * World T E :=
  let '((pageKV, err), w) := LockingGet (KeyQ s) w in
  match err with
  | Some err =>
      ((0, Some (errors.Wrap err "failed to get current cursor value"
                   [("key", FString (KeyQ s))])), w)
  | None =>
      let pageKV :=
        match pageKV with
        | Some kv => kv
        | None => {| Key := KeyQ s; Value := "0" |}
        end in
      let '(page, err) := strconv.ParseInt (Value pageKV) in
      match err with
      | Some err =>
          ((0, Some (errors.Wrap err "failed to parse cursor"
                       [("kv_cursor", FString (Value pageKV))])), w)
      | None =>
          if page <? 0
          then ((0, Some (errors.From (errors.New "cursor cannot be negative")
                            [("cursor", FInt page)])), w)
          else ((page, None), w)
      end
  end.

Fixpoint FormList (depth : nat) (s : Streamer) (w : World T E)
  : option ((list T * option error) * World T E) :=
  match depth with
  | O => None
  | S depth =>
      let '((pageNumber, err), w) := GetCurrentPage s w in
      match err with
      | Some err =>
          Some (([], Some (errors.Wrap err "failed to get current page number" [])), w)
      | None =>
          let '((entities, err), w) := Select s pageNumber w in
          match err with
          | Some err =>
              Some (([], Some (errors.Wrap err "failed to select entities" [])), w)
          | None =>
              if (Nat.eqb (length entities) 0) && (pageNumber =? 0)
              then Some (([], None), record (EvWarn "Entities list is empty") w)
              else if Nat.eqb (length entities) 0
              then
                let '(err, w) := Upsert {| Key := KeyQ s; Value := "0" |} w in
                match err with
                | Some err =>
                    Some (([], Some (errors.Wrap err "failed to upsert last page" [])), w)
                | None => FormList depth s w
                end
              else
                let '(err, w) :=
                  Upsert {| Key := KeyQ s;
                            Value := strconv.FormatUint ((pageNumber + 1) mod 2 ^ 64) |} w in
                match err with
                | Some err =>
                    Some (([], Some (errors.Wrap err "failed to update last processed entities" [])), w)
                | None => Some ((entities, None), w)
                end
          end
      end
  end.

(** The streamer of the current revision with the same fields. *)
Definition current (s : Streamer) : streamer T E :=
  Build_streamer (Stream s) (KeyQ s) (BatchSize s) (Some (Log s)) Background.

End Legacy.
Arguments Streamer : clear implicits.
End Legacy.

(** ** Decimal numerals, read mathematically

    The value of a string of decimal digits as an integer without bound,
    against which the conversions of [strconv] are compared. *)

Definition is_digit (c : ascii) : bool :=
  (48 <=? strconv.byte_val c) && (strconv.byte_val c <=? 57).

Fixpoint digits_value (acc : Z) (s : string) : option Z :=
  match s with
  | EmptyString => Some acc
  | String c rest =>
      if is_digit c
      then digits_value (acc * 10 + (strconv.byte_val c - 48)) rest
      else None
  end.

(** An unsigned decimal numeral: one digit or more, nothing else. *)
Definition decimal_value (s : string) : option Z :=
  match s with
  | EmptyString => None
  | _ => digits_value 0 s
  end.

(** A signed decimal numeral: an optional sign, then an unsigned numeral. *)
Definition signed_decimal_value (s : string) : option Z :=
  match s with
  | EmptyString => None
  | String c rest =>
      if Ascii.eqb c "+" then decimal_value rest
      else if Ascii.eqb c "-" then Z.opp <$> decimal_value rest
      else decimal_value s
  end.

(** How [ParseUint] fails: a syntax error with value 0, or a range error
    with the largest value. *)
Definition parse_failed (s0 : string) (r : Z * option error) : Prop :=
  r = (0, Some (strconv.syntaxError "ParseUint" s0)) \/
  r = (strconv.maxUint64, Some (strconv.rangeError "ParseUint" s0)).

(** What the digit loop of [ParseUint] has to compute: the value of the
    numeral when it fits 64 bits, a failure otherwise. *)
Definition parse_outcome (s0 : string) (v : option Z) (r : Z * option error)
  : Prop :=
  match v with
  | Some v =>
      if v <=? strconv.maxUint64 then r = (v, None)
      else r = (strconv.maxUint64, Some (strconv.rangeError "ParseUint" s0))
  | None => parse_failed s0 r
  end.


(** What [ParseInt] has to compute: the value of the signed numeral when it
    fits a signed 64 bit integer, a [NumError] otherwise. *)
Definition int_outcome (s0 : string) (v : option Z) (r : Z * option error)
  : Prop :=
  match v with
  | Some v =>
      if (- 2 ^ 63 <=? v) && (v <? 2 ^ 63) then r = (v, None)
      else exists x, r = (x, Some (strconv.rangeError "ParseInt" s0))
  | None => exists x cause, r = (x, Some (NumError "ParseInt" s0 cause))
  end.

(** ** Notions the properties of the streamer are stated with *)

Section Notions.
Context {T E : Type}.

(** The value stored at a key is the decimal numeral of an integer that is
    not negative (no row at all is a cursor at page 0). *)
Definition encodes_page (v : string) : Prop :=
  exists n, 0 <= n /\ decimal_value v = Some n.

Definition cursor_well_formed (key : string) (tb : gmap string string) : Prop :=
  forall v, tb !! key = Some v -> encodes_page v.

(** The statement that resets the cursor of streamer [s]. *)
Definition is_reset (s : streamer T E) (ev : Event T) : bool :=
  match ev with
  | EvExec kv => String.eqb (Key kv) (KeyValueKey s) && String.eqb (Value kv) "0"
  | _ => false
  end.

(** A locking read of the cursor: there is one per run of the body of
    [FormList]. *)
Definition is_cursor_read (s : streamer T E) (ev : Event T) : bool :=
  match ev with
  | EvQuery key true => String.eqb key (KeyValueKey s)
  | _ => false
  end.

(** A statement that writes to the table. *)
Definition is_write (ev : Event T) : bool :=
  match ev with
  | EvExec _ => true
  | _ => false
  end.

(** The two errors with which [GetCurrentPage] refuses a stored value [v]:
    [ParseInt] failed on it, or the number it holds is negative. *)
Definition cursor_corrupt (v : string) (e : error) : Prop :=
  (exists cause,
      e = errors.Wrap (NumError "ParseInt" v cause) "failed to parse cursor"
            [("kv_cursor", FString v)]) \/
  (exists page,
      page < 0 /\
      e = errors.From (errors.New "cursor cannot be negative")
            [("cursor", FInt page)]).

(** What [FormList] may write: a row for the cursor key of the streamer,
    holding ["0"] or the numeral of the successor of a page number. *)
Definition cursor_write (s : streamer T E) (kv : KeyValue) : Prop :=
  Key kv = KeyValueKey s /\
  (Value kv = "0" \/
   exists p, 0 <= p < 2 ^ 63 /\ Value kv = strconv.FormatUint (p + 1)).

(** The outside state after the handler has been applied to the entities
    [xs] in turn and succeeded on each; [None] if it failed on one. *)
Fixpoint env_after (fn : Handler T E) (ctx : Context) (xs : list T) (e : E)
  : option E :=
  match xs with
  | [] => Some e
  | x :: xs =>
      match fn ctx x e with
      | (None, e') => env_after fn ctx xs e'
      | (Some _, _) => None
      end
  end.

(** The entities the handler was called on, in the order of the calls. *)
Fixpoint handled (tr : list (Event T)) : list T :=
  match tr with
  | [] => []
  | EvHandle _ t :: tr => t :: handled tr
  | _ :: tr => handled tr
  end.

(** The stored cursor is at page [c]: the row of the key holds the
    numeral of [c], or there is no row and [c] is 0. *)
Definition cursor_at (key : string) (tb : gmap string string) (c : Z) : Prop :=
  tb !! key = Some (strconv.FormatUint c) \/ (c = 0 /\ tb !! key = None).

(** The paginated source of [s] presents the pages [pages 0], ...,
    [pages N], none of them empty, and an empty page at [N + 1], whatever
    the outside state is.  (That a page is no longer than the batch size
    plays no role.) *)
Definition presents (s : streamer T E) (N : Z) (pages : Z -> list T) : Prop :=
  0 <= N /\
  (forall i e, 0 <= i <= N ->
     pages i <> [] /\
     fst (SelectWithPageParams (Stream s)
            {| pgdb.Limit := BatchSize s; pgdb.PageNumber := i |} e)
     = (pages i, None)) /\
  (forall e,
     fst (SelectWithPageParams (Stream s)
            {| pgdb.Limit := BatchSize s; pgdb.PageNumber := N + 1 |} e)
     = ([], None)).

(** [n] calls of [FormList] in a row: for each call its result and the
    value stored at the cursor key when it returns. *)
Fixpoint FormLists (depth n : nat) (s : streamer T E) (w : World T E)
  : option (list ((list T * option error) * option string) * World T E) :=
  match n with
  | O => Some ([], w)
  | S n =>
      match FormList depth s w with
      | None => None
      | Some (res, w) =>
          match FormLists depth n s w with
          | None => None
          | Some (rest, w') =>
              Some ((res, table w !! KeyValueKey s) :: rest, w')
          end
      end
  end.

(** What [n] calls return when they walk the pages [0 .. N] round and
    round from cursor [c]: the call number [k] returns page
    [(c + k) mod (N + 1)] and leaves the numeral of that page number plus
    one in the table. *)
Definition cycle_from (N : Z) (pages : Z -> list T) (c : Z) (n : nat)
  : list ((list T * option error) * option string) :=
  map (fun k : nat =>
         let i := (c + Z.of_nat k) mod (N + 1) in
         ((pages i, None), Some (strconv.FormatUint (i + 1))))
      (seq 0 n).

(** A call that returned no error. *)
Definition succeeded (o : (list T * option error) * option string) : Prop :=
  snd (fst o) = None.

(** No statement of the script fails. *)
Definition all_executed (os : list (option string)) : Prop :=
  Forall (fun o => o = None) os.

End Notions.

(** ** Concrete sources and worlds, for the scenarios *)

(** A paginated source over a fixed list of items, with limit and offset. *)
Definition slice_source (items : list string) : Streamable string unit :=
  {| SelectWithPageParams := fun pageParams e =>
       let limit := Z.to_nat (pgdb.Limit pageParams) in
       let offset := Z.to_nat (pgdb.PageNumber pageParams * pgdb.Limit pageParams) in
       ((firstn limit (skipn offset items), None), e) |}.

(** A world whose table is [tb], in which no statement fails. *)
Definition world_with (tb : gmap string string) : World string unit :=
  {| table := tb; outcomes := []; env := tt; trace := [] |}.

(** The table with one row, the value [v] at key ["cursor"]. *)
Definition cursor_table (v : string) : gmap string string :=
  {[ "cursor" := v ]}.

(** A streamer over [items] with cursor key ["cursor"]. *)
Definition items_streamer (items : list string) (batchSize : Z)
  : streamer string unit :=
  NewStreamer {| init_Stream := slice_source items;
                 init_KeyValueKey := "cursor";
                 init_BatchSize := Some batchSize;
                 init_Log := None;
                 init_Ctx := None |}.

(** A handler that fails on the entity [bad], with the same error whatever
    the entity, and succeeds on every other one. *)
Definition fail_on (bad : string) : Handler string unit :=
  fun _ t e =>
    if String.eqb t bad then (Some (ErrOther "boom"), e) else (None, e).

(** A request to the paginated source. *)
Definition is_select {T : Type} (ev : Event T) : bool :=
  match ev with
  | EvSelect _ => true
  | _ => false
  end.

(** A paginated source that answers every request with the same page. *)
Definition constant_source (page : list string) : Streamable string unit :=
  {| SelectWithPageParams := fun _ e => ((page, None), e) |}.

(** A streamer over [constant_source page] with cursor key ["cursor"] and
    the default batch size. *)
Definition constant_streamer (page : list string) : streamer string unit :=
  NewStreamer {| init_Stream := constant_source page;
                 init_KeyValueKey := "cursor";
                 init_BatchSize := None;
                 init_Log := None;
                 init_Ctx := None |}.

(** A paginated source that fails on every request. *)
Definition failing_source : Streamable string unit :=
  {| SelectWithPageParams := fun _ e => (([], Some (ErrOther "source down")), e) |}.

Definition failing_streamer : streamer string unit :=
  NewStreamer {| init_Stream := failing_source;
                 init_KeyValueKey := "cursor";
                 init_BatchSize := None;
                 init_Log := None;
                 init_Ctx := None |}.

(** A world with table [tb] and the script [os] of statement outcomes. *)
Definition world_failing (tb : gmap string string) (os : list (option string))
  : World string unit :=
  {| table := tb; outcomes := os; env := tt; trace := [] |}.
(** * Properties *)

(** ** [strconv] *)

(** Case analysis on the integer comparisons of the goal. *)
Ltac case_cmp :=
  match goal with
  | |- context [?a <=? ?b] => destruct (Z.leb_spec a b)
  | |- context [?a <? ?b] => destruct (Z.ltb_spec a b)
  | |- context [?a =? ?b] => destruct (Z.eqb_spec a b)
  end.

Section Strconv.
Import strconv.

Lemma byte_val_range c : 0 <= byte_val c < 256.
Proof.
  unfold byte_val. pose proof (N_ascii_bounded c) as Hb. lia.
Qed.

Lemma byte_val_chr z : 0 <= z < 256 -> byte_val (byte_chr z) = z.
Proof.
  intros Hz. unfold byte_val, byte_chr.
  rewrite N_ascii_embedding by lia. lia.
Qed.

Lemma is_digit_chr d : 0 <= d < 10 -> is_digit (byte_chr (48 + d)) = true.
Proof.
  intros Hd. unfold is_digit. rewrite byte_val_chr by lia.
  apply andb_true_iff. split; apply Z.leb_le; lia.
Qed.

(** Reading more digits does not make the value smaller. *)
Lemma digits_value_ge s : forall acc v,
  0 <= acc -> digits_value acc s = Some v -> acc <= v.
Proof.
  induction s as [|c rest IH]; intros acc v Hacc Hv; simpl in Hv.
  - inversion Hv; lia.
  - destruct (is_digit c) eqn:Hc; [|discriminate].
    unfold is_digit in Hc. apply andb_true_iff in Hc as [H1 H2].
    apply Z.leb_le in H1, H2.
    apply IH in Hv; lia.
Qed.

Lemma parseDigits_spec s0 s : forall n,
  0 <= n <= maxUint64 ->
  parse_outcome s0 (digits_value n s) (parseDigits s0 n s).
Proof.
  unfold parse_outcome, parse_failed, maxUint64.
  induction s as [|c rest IH]; intros n Hn; simpl.
  - destruct (Z.leb_spec n (2 ^ 64 - 1)); [reflexivity | lia].
  - unfold is_digit. pose proof (byte_val_range c) as Hc.
    destruct ((48 <=? byte_val c) && (byte_val c <=? 57)) eqn:Hd.
    + apply andb_true_iff in Hd as [H1 H2]. apply Z.leb_le in H1, H2.
      unfold base, bitSize, maxUint64.
      destruct (Z.leb_spec 10 (byte_val c - 48)); [lia|].
      change (2 ^ 64) with 18446744073709551616 in *.
      change ((18446744073709551616 - 1) / 10 + 1) with 1844674407370955162.
      destruct (Z.leb_spec 1844674407370955162 n) as [Hcut|Hcut].
      * destruct (digits_value _ rest) as [v|] eqn:Hv; [|now right].
        apply digits_value_ge in Hv; [|lia].
        destruct (Z.leb_spec v (18446744073709551616 - 1)); [lia | reflexivity].
      * destruct (Z_lt_le_dec (n * 10 + (byte_val c - 48)) 18446744073709551616)
          as [Hfit|Hover].
        -- rewrite Z.mod_small by lia.
           destruct (Z.ltb_spec (n * 10 + (byte_val c - 48)) (n * 10)); [lia|].
           destruct (Z.ltb_spec (18446744073709551616 - 1)
                       (n * 10 + (byte_val c - 48))); [lia|].
           simpl. apply IH. lia.
        -- assert (Hm : (n * 10 + (byte_val c - 48)) mod 18446744073709551616
                        = n * 10 + (byte_val c - 48) - 18446744073709551616).
           { symmetry. apply Z.mod_unique with (q := 1); lia. }
           rewrite Hm.
           destruct (Z.ltb_spec
                       (n * 10 + (byte_val c - 48) - 18446744073709551616)
                       (n * 10)); [|lia].
           simpl.
           destruct (digits_value _ rest) as [v|] eqn:Hv; [|now right].
           apply digits_value_ge in Hv; [|lia].
           destruct (Z.leb_spec v (18446744073709551616 - 1)); [lia | reflexivity].
    + destruct ((97 <=? lower c) && (lower c <=? 122)) eqn:Hl.
      * apply andb_true_iff in Hl as [H1 H2]. apply Z.leb_le in H1, H2.
        unfold base. destruct (Z.leb_spec 10 (lower c - 97 + 10)); [|lia].
        now left.
      * now left.
Qed.

Lemma ParseUint_spec s : parse_outcome s (decimal_value s) (ParseUint s).
Proof.
  destruct s as [|c rest].
  - simpl. now left.
  - unfold ParseUint, decimal_value. apply parseDigits_spec.
    unfold maxUint64. lia.
Qed.

(** [ParseInt] after the sign is taken off: [un] and [err] come from
    [ParseUint] on the rest [s]. *)
Lemma ParseInt_after_sign s0 s (neg : bool) :
  parse_outcome s (decimal_value s) (ParseUint s) ->
  int_outcome s0 ((if neg then Z.opp else id) <$> decimal_value s)
    (let '(un, err) := ParseUint s in
     match err with
     | Some (NumError _ _ ErrSyntax) => (0, Some (syntaxError "ParseInt" s0))
     | _ =>
         let cutoff := 2 ^ (bitSize - 1) in
         if negb neg && (cutoff <=? un)
         then (cutoff - 1, Some (rangeError "ParseInt" s0))
         else if neg && (cutoff <? un)
         then (- cutoff, Some (rangeError "ParseInt" s0))
         else (if neg then - un else un, None)
     end).
Proof.
  unfold parse_outcome, parse_failed, int_outcome, maxUint64, bitSize.
  change (2 ^ (64 - 1)) with 9223372036854775808.
  change (2 ^ 63) with 9223372036854775808.
  change (2 ^ 64 - 1) with 18446744073709551615.
  intros Hu.
  assert (Hfail : parse_failed s (ParseUint s) ->
            exists x cause,
              (let '(un, err) := ParseUint s in
               match err with
               | Some (NumError _ _ ErrSyntax) =>
                   (0, Some (syntaxError "ParseInt" s0))
               | _ =>
                   if negb neg && (9223372036854775808 <=? un)
                   then (9223372036854775808 - 1, Some (rangeError "ParseInt" s0))
                   else if neg && (9223372036854775808 <? un)
                   then (- 9223372036854775808, Some (rangeError "ParseInt" s0))
                   else (if neg then - un else un, None)
               end) = (x, Some (NumError "ParseInt" s0 cause))).
  { intros [-> | ->]; simpl.
    - eauto.
    - destruct neg; simpl; eauto. }
  destruct (decimal_value s) as [u|] eqn:Hdv; simpl.
  - assert (0 <= u).
    { destruct s; [discriminate|]. apply digits_value_ge in Hdv; lia. }
    destruct (Z.leb_spec u 18446744073709551615).
    + rewrite Hu. destruct neg; simpl.
      * repeat case_cmp; simpl; try lia; eauto.
      * repeat case_cmp; simpl; try lia; eauto.
    + rewrite Hu. destruct neg; simpl; unfold id;
        repeat case_cmp; simpl; try lia; eauto.
  - apply Hfail, Hu.
Qed.

(** [ParseInt] reads signed decimal numerals that fit 64 bits, and nothing
    else. *)
Lemma ParseInt_spec s : int_outcome s (signed_decimal_value s) (ParseInt s).
Proof.
  destruct s as [|c rest].
  - simpl. eauto.
  - unfold ParseInt, signed_decimal_value.
    destruct (Ascii.eqb c "+") eqn:Hplus;
      [|destruct (Ascii.eqb c "-") eqn:Hminus].
    + pose proof (ParseInt_after_sign (String c rest) rest false
                    (ParseUint_spec rest)) as H.
      destruct (decimal_value rest); exact H.
    + exact (ParseInt_after_sign (String c rest) rest true
               (ParseUint_spec rest)).
    + pose proof (ParseInt_after_sign (String c rest) (String c rest) false
                    (ParseUint_spec (String c rest))) as H.
      destruct (decimal_value (String c rest)); exact H.
Qed.

Lemma ParseInt_ok s v :
  ParseInt s = (v, None) ->
  signed_decimal_value s = Some v /\ - 2 ^ 63 <= v < 2 ^ 63.
Proof.
  intros Hp. pose proof (ParseInt_spec s) as H. unfold int_outcome in H.
  rewrite Hp in H. destruct (signed_decimal_value s) as [u|].
  - revert H. repeat case_cmp; simpl.
    all: try (intros [x Hx]; discriminate).
    intros [= ->]. split; [reflexivity | lia].
  - destruct H as (x & cause & Hx). discriminate.
Qed.

(** *** [FormatUint] writes the decimal numeral of its argument *)

Lemma formatBits_value buf : forall u a,
  0 <= u < 10 ^ Z.of_nat buf ->
  digits_value 0 (formatBits buf u a) = digits_value u a.
Proof.
  induction buf as [|buf IH]; intros u a Hu.
  - simpl in *. replace u with 0 by lia. reflexivity.
  - rewrite Nat2Z.inj_succ, Z.pow_succ_r in Hu by lia.
    cbn [formatBits]. destruct (Z.leb_spec 10 u).
    + rewrite IH by (split; [apply Z.div_pos; lia | apply Z.div_lt_upper_bound; lia]).
      cbn [digits_value].
      pose proof (Z.mod_pos_bound u 10 ltac:(lia)).
      rewrite is_digit_chr by lia.
      rewrite byte_val_chr by lia.
      f_equal. pose proof (Z.div_mod u 10 ltac:(lia)). lia.
    + cbn [digits_value]. rewrite is_digit_chr by lia.
      rewrite byte_val_chr by lia. f_equal. lia.
Qed.

Lemma formatBits_head buf : forall u a,
  0 <= u ->
  exists c rest, formatBits (S buf) u a = String c rest /\ is_digit c = true.
Proof.
  induction buf as [|buf IH]; intros u a Hu; cbn [formatBits].
  - destruct (Z.leb_spec 10 u).
    + pose proof (Z.mod_pos_bound u 10 ltac:(lia)).
      eexists _, _. split; [reflexivity | apply is_digit_chr; lia].
    + eexists _, _. split; [reflexivity | apply is_digit_chr; lia].
  - destruct (Z.leb_spec 10 u).
    + apply IH. apply Z.div_pos; lia.
    + eexists _, _. split; [reflexivity | apply is_digit_chr; lia].
Qed.

Lemma FormatUint_decimal n :
  0 <= n <= maxUint64 -> decimal_value (FormatUint n) = Some n.
Proof.
  unfold maxUint64. intros Hn. unfold FormatUint.
  destruct (formatBits_head 19 n EmptyString ltac:(lia)) as (c & rest & Heq & _).
  unfold decimal_value. rewrite Heq, <- Heq.
  rewrite formatBits_value by (change (10 ^ Z.of_nat 20) with 100000000000000000000; lia).
  reflexivity.
Qed.

Lemma FormatUint_signed n :
  0 <= n <= maxUint64 -> signed_decimal_value (FormatUint n) = Some n.
Proof.
  intros Hn. pose proof (FormatUint_decimal n Hn) as Hd.
  unfold FormatUint in *.
  destruct (formatBits_head 19 n EmptyString ltac:(lia)) as (c & rest & Heq & Hc).
  rewrite Heq in *. unfold signed_decimal_value.
  destruct (Ascii.eqb_spec c "+") as [->|_]; [discriminate|].
  destruct (Ascii.eqb_spec c "-") as [->|_]; [discriminate|].
  exact Hd.
Qed.

(** A cursor written by [FormatUint] is read back by [ParseInt] if it is
    below [2 ^ 63], and refused otherwise. *)
Lemma ParseInt_FormatUint n :
  0 <= n < 2 ^ 63 -> ParseInt (FormatUint n) = (n, None).
Proof.
  intros Hn. pose proof (ParseInt_spec (FormatUint n)) as H.
  rewrite FormatUint_signed in H by (unfold maxUint64; lia).
  unfold int_outcome in H. revert H. repeat case_cmp; simpl; try lia.
  auto.
Qed.

Lemma ParseInt_FormatUint_range n :
  2 ^ 63 <= n <= maxUint64 ->
  exists x, ParseInt (FormatUint n)
            = (x, Some (rangeError "ParseInt" (FormatUint n))).
Proof.
  intros Hn. pose proof (ParseInt_spec (FormatUint n)) as H.
  rewrite FormatUint_signed in H by lia.
  unfold int_outcome in H. revert H. repeat case_cmp; simpl; try lia.
  all: auto.
Qed.

End Strconv.

Example ParseInt_plain : strconv.ParseInt "42" = (42, None).
Proof. reflexivity. Qed.

Example ParseInt_plus : strconv.ParseInt "+7" = (7, None).
Proof. reflexivity. Qed.

Example ParseInt_minus_zero : strconv.ParseInt "-0" = (0, None).
Proof. reflexivity. Qed.

Example ParseInt_underscore :
  strconv.ParseInt "1_000" = (0, Some (NumError "ParseInt" "1_000" ErrSyntax)).
Proof. reflexivity. Qed.

Example ParseInt_largest : strconv.ParseInt "9223372036854775807" = (2 ^ 63 - 1, None).
Proof. reflexivity. Qed.

Example FormatUint_largest :
  strconv.FormatUint (2 ^ 64 - 1) = "18446744073709551615".
Proof. reflexivity. Qed.

(** ** The database client and the key value querier *)

Section Store.
Context {T E : Type}.
Implicit Types (w : World T E) (s : streamer T E) (key : string).

(** The outcome of the next statement. *)
Lemma next_outcome_eq w :
  next_outcome w =
    (hd None (outcomes w),
     {| table := table w; outcomes := tl (outcomes w); env := env w;
        trace := trace w |}).
Proof.
  unfold next_outcome. destruct w as [tb [|o os] e tr]; reflexivity.
Qed.

Lemma get_eq key forUpdate w :
  get key forUpdate w =
    (match hd None (outcomes w) with
     | Some msg =>
         (Some {| Key := EmptyString; Value := EmptyString |}, Some (ErrDatabase msg))
     | None =>
         match table w !! key with
         | Some v => (Some {| Key := key; Value := v |}, None)
         | None => (None, None)
         end
     end,
     {| table := table w; outcomes := tl (outcomes w); env := env w;
        trace := trace w ++ [EvQuery key forUpdate] |}).
Proof.
  unfold get, db_Get. rewrite next_outcome_eq. cbn -[lookup].
  destruct (hd None (outcomes w)); [reflexivity|].
  destruct (table w !! key); reflexivity.
Qed.

Lemma Upsert_eq kv w :
  Upsert kv w =
    (ErrDatabase <$> hd None (outcomes w),
     {| table := match hd None (outcomes w) with
                 | Some _ => table w
                 | None => <[Key kv := Value kv]> (table w)
                 end;
        outcomes := tl (outcomes w); env := env w;
        trace := trace w ++ [EvExec kv] |}).
Proof.
  unfold Upsert, db_Exec. rewrite next_outcome_eq. cbn -[insert].
  destruct (hd None (outcomes w)); reflexivity.
Qed.

(** [GetCurrentPage] sends one locking query and writes nothing. *)
Lemma GetCurrentPage_world s w :
  snd (GetCurrentPage s w) =
    {| table := table w; outcomes := tl (outcomes w); env := env w;
       trace := trace w ++ [EvQuery (KeyValueKey s) true] |}.
Proof.
  unfold GetCurrentPage, LockingGet. rewrite get_eq.
  destruct (hd None (outcomes w)); [reflexivity|].
  destruct (table w !! KeyValueKey s); cbn -[strconv.ParseInt].
  all: match goal with
       | |- context [strconv.ParseInt ?v] =>
           destruct (strconv.ParseInt v) as [page [err|]]; [reflexivity|]
       end.
  all: destruct (page <? 0); reflexivity.
Qed.

(** The page [GetCurrentPage] returns is decided by the outcome of the
    query and the value stored at the cursor key, ["0"] when there is no
    row. *)
Lemma GetCurrentPage_read s w :
  hd None (outcomes w) = None ->
  fst (GetCurrentPage s w) =
    let v := default "0" (table w !! KeyValueKey s) in
    let '(page, err) := strconv.ParseInt v in
    match err with
    | Some err =>
        (0, Some (errors.Wrap err "failed to parse cursor"
                    [("kv_cursor", FString v)]))
    | None =>
        if page <? 0
        then (0, Some (errors.From (errors.New "cursor cannot be negative")
                         [("cursor", FInt page)]))
        else (page, None)
    end.
Proof.
  intros Hok. unfold GetCurrentPage, LockingGet. rewrite get_eq, Hok.
  destruct (table w !! KeyValueKey s); cbn -[strconv.ParseInt].
  all: match goal with
       | |- context [strconv.ParseInt ?v] =>
           destruct (strconv.ParseInt v) as [page [err|]]; [reflexivity|]
       end.
  all: destruct (page <? 0); reflexivity.
Qed.

Lemma GetCurrentPage_failed_query s w msg :
  hd None (outcomes w) = Some msg ->
  fst (GetCurrentPage s w) =
    (0, Some (errors.Wrap (ErrDatabase msg) "failed to get current cursor value"
                [("key", FString (KeyValueKey s))])).
Proof.
  intros Hko. unfold GetCurrentPage, LockingGet. rewrite get_eq, Hko.
  reflexivity.
Qed.

(** A page number that [GetCurrentPage] returns without error was read by
    a query that succeeded, and is that of a signed numeral between 0 and
    [2 ^ 63 - 1]. *)
Lemma GetCurrentPage_ok s w p :
  fst (GetCurrentPage s w) = (p, None) ->
  hd None (outcomes w) = None /\
  signed_decimal_value (default "0" (table w !! KeyValueKey s)) = Some p /\
  0 <= p < 2 ^ 63.
Proof.
  intros Hp. destruct (hd None (outcomes w)) as [msg|] eqn:Ho.
  - rewrite (GetCurrentPage_failed_query s w msg Ho) in Hp. discriminate.
  - rewrite GetCurrentPage_read in Hp by assumption. cbn zeta in Hp.
    destruct (strconv.ParseInt _) as [page [err|]] eqn:Hparse; [discriminate|].
    apply ParseInt_ok in Hparse as [Hv Hr].
    destruct (Z.ltb_spec page 0); [discriminate|].
    injection Hp as ->. repeat split; [assumption | lia | lia].
Qed.

Lemma Select_eq s pageNumber w :
  Select s pageNumber w =
    let pageParams :=
      {| pgdb.Limit := BatchSize s; pgdb.PageNumber := pageNumber |} in
    (fst (SelectWithPageParams (Stream s) pageParams (env w)),
     {| table := table w; outcomes := outcomes w;
        env := snd (SelectWithPageParams (Stream s) pageParams (env w));
        trace := trace w ++ [EvSelect pageParams] |}).
Proof.
  unfold Select. cbn.
  destruct (SelectWithPageParams _ _ _) as [res e]. reflexivity.
Qed.

End Store.

(** ** The streamer *)

(** From an equation [f s w = (r, w')] on one of the three steps of
    [FormList], the world [w'] in terms of [w]. *)
Ltac world_of H :=
  lazymatch type of H with
  | GetCurrentPage ?s ?w = (?r, ?w1) =>
      let Hw := fresh "Hw" in
      let Hr := fresh "Hr" in
      assert (Hw : snd (GetCurrentPage s w) = w1) by (rewrite H; reflexivity);
      assert (Hr : fst (GetCurrentPage s w) = r) by (rewrite H; reflexivity);
      rewrite GetCurrentPage_world in Hw; subst w1; clear H;
      cbn [table outcomes env trace Key Value] in *
  | Select ?s ?p ?w = (?r, ?w1) =>
      let Hw := fresh "Hw" in
      let Hr := fresh "Hr" in
      rewrite Select_eq in H; cbn zeta in H;
      assert (Hw : snd (r, w1) = w1) by reflexivity;
      assert (Hr : fst (r, w1) = r) by reflexivity;
      rewrite <- H in Hw, Hr; cbn [fst snd] in Hw, Hr; subst w1; clear H;
      cbn [table outcomes env trace Key Value] in *
  | Upsert ?kv ?w = (?r, ?w1) =>
      let Hw := fresh "Hw" in
      let Hr := fresh "Hr" in
      rewrite Upsert_eq in H;
      assert (Hw : snd (r, w1) = w1) by reflexivity;
      assert (Hr : fst (r, w1) = r) by reflexivity;
      rewrite <- H in Hw, Hr; cbn [fst snd] in Hw, Hr; subst w1; clear H;
      cbn [table outcomes env trace Key Value] in *
  end.

(** The outcome of the statement an [Upsert] sent. *)
Ltac upsert_outcome :=
  match goal with
  | Hr : ErrDatabase <$> ?o = _ |- _ =>
      let msg := fresh "msg" in
      let Ho := fresh "Ho" in
      destruct o as [msg|] eqn:Ho; cbn in Hr;
      [ try discriminate Hr; try (injection Hr as <-)
      | try discriminate Hr; clear Hr ]
  end.

(** One run of the body of [FormList (S d)]: seven ways through it. *)
Ltac FormList_body Hg Hsel Hup :=
  match goal with
  | |- context [FormList (S ?d) _ _] =>
      let d' := fresh "d" in
      let Hd := fresh "Hd" in
      remember d as d' eqn:Hd; cbn [FormList]; subst d'
  end;
  destruct (GetCurrentPage _ _) as [[?p [?err|]] ?w] eqn:Hg;
  [ world_of Hg
  | world_of Hg;
    destruct (Select _ _ _) as [[?entities [?err|]] ?w] eqn:Hsel;
    [ world_of Hsel
    | world_of Hsel;
      match goal with
      | |- context [Nat.eqb (length ?l) 0 && (?p =? 0)] =>
          destruct l as [|?x ?l]; cbn [length Nat.eqb andb];
          [ destruct (Z.eqb_spec p 0);
            [ | destruct (Upsert _ _) as [[?err|] ?w] eqn:Hup; world_of Hup;
                upsert_outcome ]
          | destruct (Upsert _ _) as [[?err|] ?w] eqn:Hup; world_of Hup;
            upsert_outcome ]
      end ] ];
  rewrite <- ?app_assoc; cbn [app].

(** Two equations on the same answer of the source. *)
Ltac same_source :=
  match goal with
  | H1 : fst (SelectWithPageParams ?a ?b ?c) = _,
    H2 : fst (SelectWithPageParams ?a ?b ?c) = _ |- _ =>
      rewrite H1 in H2
  end.

Section StreamerBasics.
Context {T E : Type}.
Implicit Types (w : World T E) (s : streamer T E).

(** More depth does not change a result. *)
Lemma FormList_mono d : forall s w r,
  FormList d s w = Some r -> FormList (S d) s w = Some r.
Proof.
  induction d as [|d IH]; intros s w r H; [discriminate|].
  revert H. FormList_body Hg Hsel Hup; try (intros H; exact H).
  apply IH.
Qed.

Lemma FormList_more d k s w r :
  FormList d s w = Some r -> FormList (k + d) s w = Some r.
Proof.
  induction k as [|k IH]; intros H; [exact H|].
  apply FormList_mono, IH, H.
Qed.

(** The cursor written after a non-empty page is never the reset value. *)
Lemma FormatUint_succ_not_zero p :
  0 <= p < 2 ^ 63 ->
  String.eqb (strconv.FormatUint ((p + 1) mod 2 ^ 64)) "0" = false.
Proof.
  intros Hp. rewrite Z.mod_small by lia.
  apply String.eqb_neq. intros Heq.
  pose proof (FormatUint_decimal (p + 1)) as Hd. rewrite Heq in Hd.
  unfold strconv.maxUint64 in Hd. specialize (Hd ltac:(lia)).
  change (decimal_value "0") with (Some 0) in Hd. injection Hd as Hd. lia.
Qed.

Lemma GetCurrentPage_zero s w p :
  table w !! KeyValueKey s = Some "0" ->
  fst (GetCurrentPage s w) = (p, None) -> p = 0.
Proof.
  intros Hzero Hp. apply GetCurrentPage_ok in Hp as (_ & Hv & _).
  rewrite Hzero in Hv. vm_compute in Hv. congruence.
Qed.

(** When the stored cursor is ["0"], the body of [FormList] runs once:
    it reads the cursor once and does not reset it. *)
Lemma FormList_after_reset s w d :
  table w !! KeyValueKey s = Some "0" ->
  exists r w' new,
    FormList (S d) s w = Some (r, w') /\
    trace w' = trace w ++ new /\
    List.filter (is_reset s) new = [] /\
    length (List.filter (is_cursor_read s) new) = 1%nat.
Proof.
  intros Hzero.
  FormList_body Hg Hsel Hup;
    try (apply (GetCurrentPage_zero s w _ Hzero) in Hr; subst p);
    try congruence.
  3: unfold Warn, record; destruct (Log s); cbn [table outcomes env trace];
     rewrite <- ?app_assoc; cbn [app].
  all: eexists _, _, _; split; [reflexivity|]; split; [reflexivity|].
  all: cbn [List.filter is_reset is_cursor_read Key Value length];
    rewrite ?String.eqb_refl; cbn [andb List.filter length]; auto.
Qed.

(** A call of [FormList] runs its body at most twice: depth 2 is enough in
    every world, the cursor is reset at most once and read at most
    twice. *)
Lemma FormList_two s w :
  exists r w' new,
    FormList 2 s w = Some (r, w') /\
    trace w' = trace w ++ new /\
    (length (List.filter (is_reset s) new) <= 1)%nat /\
    (length (List.filter (is_cursor_read s) new) <= 2)%nat.
Proof.
  FormList_body Hg Hsel Hup.
  3: unfold Warn, record; destruct (Log s); cbn [table outcomes env trace];
     rewrite <- ?app_assoc; cbn [app].
  6: { match goal with
       | |- context [FormList 1 s ?w1] =>
           destruct (FormList_after_reset s w1 0) as (r & w' & new & Hf & Htr & Hres & Hq)
       end.
       { cbn [table]. apply lookup_insert_eq. }
       cbn [trace] in Htr. rewrite <- app_assoc in Htr. cbn [app] in Htr.
       eexists r, w', _.
       split; [exact Hf|]. split; [exact Htr|].
       cbn [List.filter is_reset is_cursor_read Key Value].
       rewrite !String.eqb_refl. cbn [andb length].
       rewrite Hres, Hq. cbn. lia. }
  all: eexists _, _, _; split; [reflexivity|]; split; [reflexivity|].
  all: cbn [List.filter is_reset is_cursor_read Key Value length];
    rewrite ?String.eqb_refl; cbn [andb List.filter length]; try lia.
  all: apply GetCurrentPage_ok in Hr as (_ & _ & Hp);
    rewrite FormatUint_succ_not_zero by assumption;
    cbn [List.filter length]; lia.
Qed.

End StreamerBasics.

(** ** The earlier revision of the streamer *)

Section LegacyRevision.
Context {T E : Type}.

(** [FormList] of the earlier revision is [FormList] of the current one, on
    the streamer with the same fields: what is proved of the latter holds
    of the former. *)
Lemma Legacy_FormList_current d : forall (s : Legacy.Streamer T E) (w : World T E),
  Legacy.FormList d s w = FormList d (Legacy.current s) w.
Proof.
  induction d as [|d IH]; intros s w; [reflexivity|].
  cbn [Legacy.FormList FormList].
  change (Legacy.GetCurrentPage s w) with (GetCurrentPage (Legacy.current s) w).
  destruct (GetCurrentPage (Legacy.current s) w) as [[p [err|]] w1];
    [reflexivity|].
  change (Legacy.Select s p w1) with (Select (Legacy.current s) p w1).
  destruct (Select (Legacy.current s) p w1) as [[entities [err|]] w2];
    [reflexivity|].
  destruct (Nat.eqb (length entities) 0 && (p =? 0)); [reflexivity|].
  destruct (Nat.eqb (length entities) 0).
  - cbn [Legacy.current KeyValueKey].
    destruct (Upsert _ w2) as [[err|] w3]; [reflexivity | apply IH].
  - reflexivity.
Qed.

End LegacyRevision.

(** ** The key value querier: absent keys *)

Section KeyValueClaims.
Context {T E : Type}.
Implicit Types (w : World T E) (s : streamer T E) (key : string).

(** C9.  For a key with no row in the table (and a query that the
    database executes), [Get] and [LockingGet] return [nil, nil];
    [MustGet] and [MustLockingGet] then return [nil] and do not panic.
    In every world the two panic exactly when [Get], respectively
    [LockingGet], returns an error. *)
Theorem Get_absent_key key w :
  table w !! key = None ->
  hd None (outcomes w) = None ->
  fst (Get key w) = (None, None) /\
  fst (LockingGet key w) = (None, None) /\
  fst (MustGet key w) = Returned None /\
  fst (MustLockingGet key w) = Returned None /\
  (forall key' w',
      (exists e, fst (MustGet key' w') = Panicked e)
      <-> snd (fst (Get key' w')) <> None) /\
  (forall key' w',
      (exists e, fst (MustLockingGet key' w') = Panicked e)
      <-> snd (fst (LockingGet key' w')) <> None).
Proof.
  intros Habsent Hok.
  unfold MustGet, MustLockingGet, Get, LockingGet.
  rewrite !get_eq, Hok, Habsent. cbn [fst snd].
  repeat split; try reflexivity.
  - intros [e He]. revert He.
    destruct (get key' false w') as [[v [err|]] w1]; cbn; [discriminate|].
    intros He; discriminate He.
  - intros Herr.
    destruct (get key' false w') as [[v [err|]] w1]; cbn in *; [eauto|].
    congruence.
  - intros [e He]. revert He.
    destruct (get key' true w') as [[v [err|]] w1]; cbn; [discriminate|].
    intros He; discriminate He.
  - intros Herr.
    destruct (get key' true w') as [[v [err|]] w1]; cbn in *; [eauto|].
    congruence.
Qed.

End KeyValueClaims.

Lemma Get_absent_key_witness :
  fst (Get "missing" (world_with (cursor_table "3"))) = (None, None) /\
  fst (MustGet "missing" (world_with (cursor_table "3"))) = Returned None.
Proof.
  assert (Habsent : table (world_with (cursor_table "3")) !! "missing" = None)
    by (vm_compute; reflexivity).
  pose proof (Get_absent_key "missing" (world_with (cursor_table "3"))
                Habsent eq_refl) as H.
  split; [apply H | apply H].
Defined.

(** ** Reading the cursor *)

Section CursorClaims.
Context {T E : Type}.
Implicit Types (w : World T E) (s : streamer T E).

(** C8.  When there is no row for the cursor key, [GetCurrentPage] returns
    page 0 and no error, and writes nothing: the table is unchanged and
    the only statement sent is the locking query. *)
Theorem GetCurrentPage_fresh_key s w :
  table w !! KeyValueKey s = None ->
  hd None (outcomes w) = None ->
  exists w',
    GetCurrentPage s w = ((0, None), w') /\
    table w' = table w /\
    env w' = env w /\
    trace w' = trace w ++ [EvQuery (KeyValueKey s) true].
Proof.
  intros Habsent Hok. exists (snd (GetCurrentPage s w)).
  split.
  - rewrite (surjective_pairing (GetCurrentPage s w)) at 1.
    f_equal. rewrite GetCurrentPage_read by assumption.
    rewrite Habsent. reflexivity.
  - rewrite GetCurrentPage_world. repeat split.
Qed.

(** C3, as amended.  A value [v] stored at the cursor key is read as a
    signed decimal numeral of 64 bits (the code calls [ParseInt], not
    [ParseUint]): [GetCurrentPage] returns [n] when [v] is the numeral of
    an [n] between 0 and [2 ^ 63 - 1], an optional sign included, and
    fails with a cursor error, page 0 returned beside it, in every other
    case. *)
Theorem GetCurrentPage_reads_signed_numeral s w v :
  table w !! KeyValueKey s = Some v ->
  hd None (outcomes w) = None ->
  (forall n, signed_decimal_value v = Some n -> 0 <= n < 2 ^ 63 ->
             fst (GetCurrentPage s w) = (n, None)) /\
  ((forall n, signed_decimal_value v = Some n -> ~ 0 <= n < 2 ^ 63) ->
   exists e, fst (GetCurrentPage s w) = (0, Some e) /\ cursor_corrupt v e).
Proof.
  intros Hv Hok. rewrite GetCurrentPage_read by assumption.
  rewrite Hv. unfold default, from_option, id. cbn zeta.
  pose proof (ParseInt_spec v) as Hspec. unfold int_outcome in Hspec.
  destruct (strconv.ParseInt v) as [page err].
  destruct (signed_decimal_value v) as [m|].
  - destruct ((- 2 ^ 63 <=? m) && (m <? 2 ^ 63)) eqn:Hrange.
    + injection Hspec as -> ->.
      apply andb_true_iff in Hrange as [H1 H2].
      apply Z.leb_le in H1. apply Z.ltb_lt in H2.
      split.
      * intros n [= <-] Hn. destruct (Z.ltb_spec m 0); [lia | reflexivity].
      * intros Hout. destruct (Z.ltb_spec m 0).
        -- eexists. split; [reflexivity|]. right. eauto.
        -- exfalso. apply (Hout m eq_refl). lia.
    + destruct Hspec as [x [= -> ->]].
      apply andb_false_iff in Hrange.
      split.
      * intros n [= <-] Hn. exfalso.
        destruct Hrange as [H|H]; [apply Z.leb_gt in H | apply Z.ltb_ge in H]; lia.
      * intros _. eexists. split; [reflexivity|]. left. eauto.
  - destruct Hspec as (x & cause & [= -> ->]).
    split; [discriminate|].
    intros _. eexists. split; [reflexivity|]. left. eauto.
Qed.

End CursorClaims.

Lemma GetCurrentPage_fresh_key_witness :
  exists w',
    GetCurrentPage (items_streamer [] 2) (world_with ∅) = ((0, None), w') /\
    table w' = table (world_with ∅) /\
    env w' = env (world_with ∅) /\
    trace w' = trace (world_with ∅)
                 ++ [EvQuery (KeyValueKey (items_streamer [] 2)) true].
Proof.
  apply (GetCurrentPage_fresh_key (items_streamer [] 2) (world_with ∅));
    reflexivity.
Defined.

(** The corrupted cursors ["-1"] and ["abc"] are refused. *)
Lemma GetCurrentPage_reads_signed_numeral_witness :
  exists e,
    fst (GetCurrentPage (items_streamer [] 2)
           (world_with (cursor_table "-1"))) = (0, Some e) /\
    cursor_corrupt "-1" e.
Proof.
  assert (Hv : table (world_with (cursor_table "-1"))
                 !! KeyValueKey (items_streamer [] 2) = Some "-1")
    by (vm_compute; reflexivity).
  apply (proj2 (GetCurrentPage_reads_signed_numeral (items_streamer [] 2)
                  (world_with (cursor_table "-1")) "-1" Hv eq_refl)).
  intros n Hn. vm_compute in Hn. injection Hn as <-. lia.
Defined.

Example GetCurrentPage_abc :
  fst (GetCurrentPage (items_streamer [] 2) (world_with (cursor_table "abc")))
  = (0, Some (ErrWrap (NumError "ParseInt" "abc" ErrSyntax)
                "failed to parse cursor" [("kv_cursor", FString "abc")])).
Proof. vm_compute. reflexivity. Qed.

Example GetCurrentPage_minus_one :
  fst (GetCurrentPage (items_streamer [] 2) (world_with (cursor_table "-1")))
  = (0, Some (ErrFrom (ErrNew "cursor cannot be negative") [("cursor", FInt (-1))])).
Proof. vm_compute. reflexivity. Qed.

(** C3, as the specification states it, fails: ["9223372036854775808"] is
    the numeral of an unsigned integer of 64 bits, [2 ^ 63], and
    [GetCurrentPage] refuses it; ["+1"] is not an unsigned numeral, and
    [GetCurrentPage] returns page 1 for it. *)
Lemma GetCurrentPage_unsigned_counterexample :
  (decimal_value "9223372036854775808" = Some (2 ^ 63) /\
   2 ^ 63 <= strconv.maxUint64 /\
   fst (GetCurrentPage (items_streamer [] 2)
          (world_with (cursor_table "9223372036854775808")))
   = (0, Some (ErrWrap (NumError "ParseInt" "9223372036854775808" ErrRange)
                 "failed to parse cursor"
                 [("kv_cursor", FString "9223372036854775808")]))) /\
  (decimal_value "+1" = None /\
   fst (GetCurrentPage (items_streamer [] 2) (world_with (cursor_table "+1")))
   = (1, None)).
Proof.
  repeat split; try (vm_compute; reflexivity).
  vm_compute. discriminate.
Qed.

(** ** One call of [FormList] *)

Section FormListClaims.
Context {T E : Type}.
Implicit Types (w : World T E) (s : streamer T E).

(** C7.  When the current page is 0 and page 0 of the source is empty,
    [FormList] returns an empty page and no error, and sends no statement
    that writes: the table is unchanged, so an absent cursor key stays
    absent. *)
Theorem FormList_empty_source s w d :
  fst (GetCurrentPage s w) = (0, None) ->
  fst (SelectWithPageParams (Stream s)
         {| pgdb.Limit := BatchSize s; pgdb.PageNumber := 0 |} (env w))
  = ([], None) ->
  exists w' new,
    FormList (S d) s w = Some (([], None), w') /\
    table w' = table w /\
    trace w' = trace w ++ new /\
    List.filter is_write new = [] /\
    (table w !! KeyValueKey s = None -> table w' !! KeyValueKey s = None).
Proof.
  intros Hpage Hempty.
  FormList_body Hg Hsel Hup; cbn [fst] in *; simplify_eq.
  all: try congruence.
  unfold Warn, record. destruct (Log s); cbn [table outcomes env trace];
    rewrite <- ?app_assoc; cbn [app].
  all: eexists _, _; split; [reflexivity|]; split; [reflexivity|].
  all: split; [reflexivity|]; split; [reflexivity | auto].
Qed.

(** C2.  When [GetCurrentPage] succeeds with page [p] and the source
    returns a page that is not empty, [FormList] sends the upsert of the
    decimal numeral of [p + 1] at the cursor key; when the database
    executes it, that value is stored and [FormList] returns the page it
    fetched, as it is.  (When the upsert fails the table is unchanged and
    the error is returned without the page.) *)
Theorem FormList_advances s w d p page :
  fst (GetCurrentPage s w) = (p, None) ->
  fst (SelectWithPageParams (Stream s)
         {| pgdb.Limit := BatchSize s; pgdb.PageNumber := p |} (env w))
  = (page, None) ->
  page <> [] ->
  exists r w',
    FormList (S d) s w = Some (r, w') /\
    trace w' =
      trace w ++
        [EvQuery (KeyValueKey s) true;
         EvSelect {| pgdb.Limit := BatchSize s; pgdb.PageNumber := p |};
         EvExec {| Key := KeyValueKey s;
                   Value := strconv.FormatUint (p + 1) |}] /\
    match hd None (tl (outcomes w)) with
    | None =>
        r = (page, None) /\
        table w' = <[KeyValueKey s := strconv.FormatUint (p + 1)]> (table w)
    | Some msg =>
        r = ([], Some (errors.Wrap (ErrDatabase msg)
                         "failed to update last processed entities" [])) /\
        table w' = table w
    end.
Proof.
  intros Hpage Hsrc Hne.
  pose proof (GetCurrentPage_ok s w p Hpage) as (_ & _ & Hp).
  FormList_body Hg Hsel Hup; cbn [fst] in *; simplify_eq.
  all: try congruence.
  all: same_source; simplify_eq.
  all: rewrite Z.mod_small by lia.
  all: eexists _, _; split; [reflexivity|]; split; [reflexivity|].
  all: split; reflexivity.
Qed.

(** C4.  In every world a call of [FormList] ends after its body has run
    at most twice: the result at depth 2 is the result at every larger
    depth, the cursor is reset at most once during the call and read at
    most twice. *)
Theorem FormList_restarts_at_most_once s w :
  exists r w' new,
    (forall k, FormList (k + 2) s w = Some (r, w')) /\
    trace w' = trace w ++ new /\
    (length (List.filter (is_reset s) new) <= 1)%nat /\
    (length (List.filter (is_cursor_read s) new) <= 2)%nat.
Proof.
  destruct (FormList_two s w) as (r & w' & new & Hf & Htr & Hres & Hread).
  exists r, w', new. repeat split; try assumption.
  intros k. apply FormList_more, Hf.
Qed.

End FormListClaims.

Lemma FormList_empty_source_witness :
  exists w' new,
    FormList 1 (items_streamer [] 2) (world_with ∅) = Some (([], None), w') /\
    table w' = table (world_with ∅) /\
    trace w' = trace (world_with ∅) ++ new /\
    List.filter is_write new = [] /\
    (table (world_with ∅) !! KeyValueKey (items_streamer [] 2) = None ->
     table w' !! KeyValueKey (items_streamer [] 2) = None).
Proof.
  apply (FormList_empty_source (items_streamer [] 2) (world_with ∅) 0);
    vm_compute; reflexivity.
Defined.

Lemma FormList_advances_witness :
  exists r w',
    FormList 1 (items_streamer ["a"; "b"; "c"] 2) (world_with (cursor_table "1"))
    = Some (r, w') /\
    trace w' =
      trace (world_with (cursor_table "1")) ++
        [EvQuery "cursor" true;
         EvSelect {| pgdb.Limit := 2; pgdb.PageNumber := 1 |};
         EvExec {| Key := "cursor"; Value := "2" |}] /\
    r = (["c"], None) /\
    table w' = <["cursor" := "2"]> (cursor_table "1").
Proof.
  apply (FormList_advances (items_streamer ["a"; "b"; "c"] 2)
           (world_with (cursor_table "1")) 0 1 ["c"]).
  - vm_compute; reflexivity.
  - vm_compute; reflexivity.
  - discriminate.
Defined.

(** ** What [FormList] writes *)

Section CursorInvariant.
Context {T E : Type}.
Implicit Types (w : World T E) (s : streamer T E).

Lemma cursor_write_encodes s kv : cursor_write s kv -> encodes_page (Value kv).
Proof.
  intros [_ [-> | (p & Hp & ->)]].
  - exists 0. split; [lia | reflexivity].
  - exists (p + 1). split; [lia|].
    apply FormatUint_decimal. unfold strconv.maxUint64. lia.
Qed.

(** The statements of a call that write are writes of the cursor, and
    the table after the call is the table before it, or that table with
    such a write. *)
Lemma FormList_writes d : forall s w r w',
  FormList d s w = Some (r, w') ->
  exists new,
    trace w' = trace w ++ new /\
    (forall kv, In (EvExec kv) new -> cursor_write s kv) /\
    (table w' = table w \/
     exists kv, cursor_write s kv /\
                table w' = <[KeyValueKey s := Value kv]> (table w)).
Proof.
  induction d as [|d IH]; intros s w r w'; [discriminate|].
  FormList_body Hg Hsel Hup.
  3: unfold Warn, record; destruct (Log s); cbn [table outcomes env trace];
     rewrite <- ?app_assoc; cbn [app].
  6: { intros Hrec. apply IH in Hrec as (new & Htr & Hnew & Htb).
       cbn [trace table] in Htr, Htb.
       rewrite <- app_assoc in Htr. cbn [app] in Htr.
       assert (Hreset : cursor_write s {| Key := KeyValueKey s; Value := "0" |}).
       { split; [reflexivity | left; reflexivity]. }
       eexists. split; [exact Htr|]. split.
       - intros kv [Hin|[Hin|[Hin|Hin]]]; try discriminate.
         + injection Hin as <-. exact Hreset.
         + apply Hnew, Hin.
       - right. destruct Htb as [-> | (kv & Hkv & ->)].
         + eexists. split; [exact Hreset | reflexivity].
         + exists kv. split; [exact Hkv|]. apply insert_insert_eq. }
  all: intros [= <- <-]; cbn [trace table].
  all: eexists; split; [reflexivity|].
  all: try (apply GetCurrentPage_ok in Hr as (_ & _ & Hp);
            rewrite (Z.mod_small (p + 1)) by lia).
  all: split;
    [ intros kv Hin; cbn [In] in Hin;
      repeat (destruct Hin as [Hin|Hin]; try discriminate Hin);
      try contradiction; injection Hin as <-
    | ].
  all: try (left; reflexivity).
  all: try (split; [reflexivity | left; reflexivity]).
  all: try (split; [reflexivity | right; eauto]).
  all: right; eexists {| Key := KeyValueKey s; Value := _ |};
    (split; [split; [reflexivity | right; eauto] | reflexivity]).
Qed.

(** C10.  Every call of [FormList] ends, with or without an error, and
    every value it writes is written at its cursor key and is ["0"] or
    the decimal numeral of [p + 1] for a page number [p]: the numeral of
    an integer that is not negative.  So a cursor value that is such a
    numeral before the call is one after it, and no other key changes. *)
Theorem FormList_keeps_cursor_well_formed s w k :
  exists r w' new,
    FormList (k + 2) s w = Some (r, w') /\
    trace w' = trace w ++ new /\
    (forall kv, In (EvExec kv) new ->
                cursor_write s kv /\ encodes_page (Value kv)) /\
    (cursor_well_formed (KeyValueKey s) (table w) ->
     cursor_well_formed (KeyValueKey s) (table w')) /\
    (forall key, key <> KeyValueKey s -> table w' !! key = table w !! key).
Proof.
  destruct (FormList_two s w) as (r & w' & new0 & Hf & _).
  apply (FormList_more _ k) in Hf.
  destruct (FormList_writes _ _ _ _ _ Hf) as (new & Htr & Hnew & Htb).
  exists r, w', new. split; [exact Hf|]. split; [exact Htr|].
  split; [|split].
  - intros kv Hin. split; [apply Hnew, Hin|].
    apply (cursor_write_encodes s), Hnew, Hin.
  - intros Hwf v. destruct Htb as [-> | (kv & Hkv & ->)]; [apply Hwf|].
    rewrite lookup_insert_eq. intros [= <-].
    apply (cursor_write_encodes s), Hkv.
  - intros key Hkey. destruct Htb as [-> | (kv & Hkv & ->)]; [reflexivity|].
    apply lookup_insert_ne. congruence.
Qed.

End CursorInvariant.

(** ** [FormListAndProcess] *)

Section ProcessClaims.
Context {T E : Type}.
Implicit Types (w : World T E) (s : streamer T E) (fn : Handler T E).

(** The loop over the page: the handler is called on the entities in
    order, up to the end of the page or to the first entity on which it
    fails, that one included. *)
Lemma process_calls s fn entities : forall w r w',
  process s fn entities w = (r, w') ->
  table w' = table w /\
  exists called,
    trace w' = trace w ++ map (EvHandle (Ctx s)) called /\
    match r with
    | None =>
        called = entities /\
        env_after fn (Ctx s) entities (env w) = Some (env w')
    | Some err =>
        exists pre x post inner e0,
          entities = pre ++ x :: post /\
          called = pre ++ [x] /\
          env_after fn (Ctx s) pre (env w) = Some e0 /\
          fn (Ctx s) x e0 = (Some inner, env w') /\
          err = errors.Wrap inner "failed to process an entity" []
    end.
Proof.
  induction entities as [|x entities IH]; intros w r w' Hp; cbn in Hp.
  - injection Hp as <- <-. split; [reflexivity|].
    exists []. rewrite app_nil_r. repeat split.
  - unfold call, record in Hp. cbn [table outcomes env trace] in Hp.
    destruct (fn (Ctx s) x (env w)) as [[inner|] e1] eqn:Hfn.
    + injection Hp as <- <-. split; [reflexivity|].
      exists [x]. split; [reflexivity|].
      exists [], x, entities, inner, (env w). repeat split. exact Hfn.
    + apply IH in Hp as (Htb & called & Htr & Hr).
      cbn [table outcomes env trace] in *. split; [exact Htb|].
      exists (x :: called). split.
      { rewrite Htr, <- app_assoc. reflexivity. }
      destruct r as [err|].
      * destruct Hr as (pre & y & post & inner & e0 & -> & -> & Hpre & Hy & ->).
        exists (x :: pre), y, post, inner, e0. repeat split; try assumption.
        cbn. rewrite Hfn. exact Hpre.
      * destruct Hr as [-> Henv]. split; [reflexivity|].
        cbn. rewrite Hfn. exact Henv.
Qed.

(** C5, as amended.  [FormListAndProcess] calls the handler once on each
    entity of the page [FormList] returns, in the order of the page; on
    the first failure of the handler it stops, no later entity is
    handled, and it returns that error wrapped with the message
    "failed to process an entity", which is the same for every entity
    and carries no field. *)
Theorem FormListAndProcess_stops_at_first_failure s fn d w entities w1 :
  FormList d s w = Some ((entities, None), w1) ->
  exists r w2 called,
    FormListAndProcess d s fn w = Some (r, w2) /\
    table w2 = table w1 /\
    trace w2 = trace w1 ++ map (EvHandle (Ctx s)) called /\
    match r with
    | None =>
        called = entities /\
        env_after fn (Ctx s) entities (env w1) = Some (env w2)
    | Some err =>
        exists pre x post inner e0,
          entities = pre ++ x :: post /\
          called = pre ++ [x] /\
          env_after fn (Ctx s) pre (env w1) = Some e0 /\
          fn (Ctx s) x e0 = (Some inner, env w2) /\
          err = errors.Wrap inner "failed to process an entity" []
    end.
Proof.
  intros Hf. unfold FormListAndProcess. rewrite Hf.
  destruct (process s fn entities w1) as [r w2] eqn:Hp.
  apply process_calls in Hp as (Htb & called & Htr & Hr).
  exists r, w2, called. repeat split; assumption.
Qed.

End ProcessClaims.

Lemma FormListAndProcess_stops_at_first_failure_witness :
  exists r w2 called,
    FormListAndProcess 1 (items_streamer ["a"; "b"; "c"] 3) (fail_on "b")
      (world_with ∅) = Some (r, w2) /\
    called = ["a"; "b"] /\
    r = Some (ErrWrap (ErrOther "boom") "failed to process an entity" []).
Proof.
  assert (Hf : FormList 1 (items_streamer ["a"; "b"; "c"] 3) (world_with ∅)
               = Some ((["a"; "b"; "c"], None),
                       {| table := cursor_table "1"; outcomes := []; env := tt;
                          trace :=
                            [EvQuery "cursor" true;
                             EvSelect {| pgdb.Limit := 3; pgdb.PageNumber := 0 |};
                             EvExec {| Key := "cursor"; Value := "1" |}] |}))
    by (vm_compute; reflexivity).
  destruct (FormListAndProcess_stops_at_first_failure
              (items_streamer ["a"; "b"; "c"] 3) (fail_on "b") 1 (world_with ∅)
              _ _ Hf)
    as (r & w2 & called & Hrun & Htb & Htr & Hr).
  exists r, w2, called. split; [exact Hrun|].
  vm_compute in Hrun. injection Hrun as <- <-.
  split; [|reflexivity].
  cbn in Htr. injection Htr as Htr.
  destruct called as [|c1 [|c2 [|c3 called]]]; try discriminate Htr.
  injection Htr as <- <-. reflexivity.
Defined.

(** C5, as the specification states it, fails: the error returned when the
    handler fails on the first entity of the page is the error returned
    when it fails on the second one, so the error does not tell which
    entity or index failed. *)
Lemma FormListAndProcess_error_has_no_position :
  let s := items_streamer ["a"; "b"] 2 in
  let run bad := FormListAndProcess 2 s (fail_on bad) (world_with ∅) in
  fst <$> run "a"
  = Some (Some (ErrWrap (ErrOther "boom") "failed to process an entity" [])) /\
  fst <$> run "b"
  = Some (Some (ErrWrap (ErrOther "boom") "failed to process an entity" [])) /\
  (handled ∘ trace ∘ snd) <$> run "a" = Some ["a"] /\
  (handled ∘ trace ∘ snd) <$> run "b" = Some ["a"; "b"].
Proof.
  repeat split; vm_compute; reflexivity.
Qed.

(** ** Repeated calls of [FormList]: the cycle through the pages *)

Section Cycle.
Context {T E : Type}.
Implicit Types (w : World T E) (s : streamer T E).

Lemma all_executed_hd os : all_executed os -> hd None os = None.
Proof. intros H. destruct H; [reflexivity | assumption]. Qed.

Lemma all_executed_tl os : all_executed os -> all_executed (tl os).
Proof. intros H. destruct H; [constructor | assumption]. Qed.

(** What a cursor at [c] is read as. *)
Lemma cursor_at_value key tb c :
  cursor_at key tb c -> default "0" (tb !! key) = strconv.FormatUint c.
Proof.
  intros [-> | [-> ->]]; reflexivity.
Qed.

Lemma GetCurrentPage_at s w c p :
  cursor_at (KeyValueKey s) (table w) c -> 0 <= c <= 2 ^ 63 ->
  fst (GetCurrentPage s w) = (p, None) -> p = c /\ c < 2 ^ 63.
Proof.
  intros Hc Hr Hp. apply GetCurrentPage_ok in Hp as (_ & Hv & Hrange).
  rewrite (cursor_at_value _ _ _ Hc) in Hv.
  rewrite FormatUint_signed in Hv by (unfold strconv.maxUint64; lia).
  injection Hv as <-. split; [reflexivity | lia].
Qed.

Lemma GetCurrentPage_at_ok s w c :
  cursor_at (KeyValueKey s) (table w) c -> 0 <= c < 2 ^ 63 ->
  hd None (outcomes w) = None ->
  fst (GetCurrentPage s w) = (c, None).
Proof.
  intros Hc Hr Hok. rewrite GetCurrentPage_read by assumption.
  rewrite (cursor_at_value _ _ _ Hc). cbn zeta.
  rewrite ParseInt_FormatUint by assumption.
  destruct (Z.ltb_spec c 0); [lia | reflexivity].
Qed.

Variables (s : streamer T E) (N : Z) (pages : Z -> list T).
Hypothesis Hsrc : presents s N pages.

(** A call at a cursor on one of the pages [0 .. N]. *)
Lemma FormList_at_page d w c :
  0 <= c <= N -> c <= 2 ^ 63 ->
  cursor_at (KeyValueKey s) (table w) c ->
  exists r w',
    FormList (S d) s w = Some (r, w') /\
    (snd r = None ->
     r = (pages c, None) /\
     table w' !! KeyValueKey s = Some (strconv.FormatUint (c + 1)) /\
     c < 2 ^ 63) /\
    (all_executed (outcomes w) -> c < 2 ^ 63 ->
     snd r = None /\ all_executed (outcomes w')).
Proof.
  intros Hc Hc63 Hat. destruct Hsrc as (HN & Hpages & Hend).
  destruct (Hpages c (env w) Hc) as [Hne Hsel0].
  FormList_body Hg Hsel Hup; cbn [fst snd] in *.
  all: try (apply (GetCurrentPage_at s w c) in Hr as [-> Hlt];
              [|assumption|lia]).
  all: try (same_source; simplify_eq).
  all: eexists _, _; split; [reflexivity|]; cbn [fst snd table outcomes].
  all: split; [try discriminate|].
  - intros Hall Hlt.
    rewrite (GetCurrentPage_at_ok s w c Hat) in Hr by
      (try apply all_executed_hd; auto; lia).
    discriminate.
  - intros Hall _. apply all_executed_tl, all_executed_hd in Hall. congruence.
  - intros _. rewrite Z.mod_small by lia. rewrite lookup_insert_eq.
    repeat split; congruence.
  - intros Hall _. split; [reflexivity|].
    apply all_executed_tl, all_executed_tl, Hall.
Qed.

(** A call at the cursor past the last page: the cursor is reset and the
    body runs again, at page 0. *)
Lemma FormList_at_end w :
  N + 1 <= 2 ^ 63 ->
  cursor_at (KeyValueKey s) (table w) (N + 1) ->
  exists r w',
    FormList 2 s w = Some (r, w') /\
    (snd r = None ->
     r = (pages 0, None) /\
     table w' !! KeyValueKey s = Some (strconv.FormatUint 1)) /\
    (all_executed (outcomes w) -> N + 1 < 2 ^ 63 ->
     snd r = None /\ all_executed (outcomes w')).
Proof.
  intros HN63 Hat. pose proof Hsrc as (HN & Hpages & Hend).
  pose proof (Hend (env w)) as Hsel0.
  FormList_body Hg Hsel Hup; cbn [fst snd] in *.
  all: try (apply (GetCurrentPage_at s w (N + 1)) in Hr as [-> Hlt];
              [|assumption|lia]).
  all: try (same_source; simplify_eq).
  all: try lia.
  3: { match goal with
       | |- context [FormList 1 s ?w3] =>
           destruct (FormList_at_page 0 w3 0) as (r & w' & Hf & Hok & Hall)
       end.
       { lia. }
       { lia. }
       { left. cbn [table]. apply lookup_insert_eq. }
       exists r, w'. split; [exact Hf|]. split.
       - intros Hr. apply Hok in Hr as (-> & Htb & _). auto.
       - intros Hex _. apply Hall; [|lia]. cbn [outcomes].
         apply all_executed_tl, all_executed_tl, Hex. }
  all: eexists _, _; split; [reflexivity|]; cbn [fst snd table outcomes].
  all: split; [discriminate|].
  - intros Hall Hlt.
    rewrite (GetCurrentPage_at_ok s w (N + 1) Hat) in Hr by
      (try apply all_executed_hd; auto; lia).
    discriminate.
  - intros Hall _. apply all_executed_tl, all_executed_hd in Hall. congruence.
Qed.

(** One call, at any cursor the cycle goes through. *)
Lemma FormList_cycle_step w c :
  0 <= c <= N + 1 -> c <= 2 ^ 63 ->
  cursor_at (KeyValueKey s) (table w) c ->
  exists r w',
    FormList 2 s w = Some (r, w') /\
    (snd r = None ->
     r = (pages (c mod (N + 1)), None) /\
     table w' !! KeyValueKey s
     = Some (strconv.FormatUint (c mod (N + 1) + 1)) /\
     c mod (N + 1) < 2 ^ 63) /\
    (all_executed (outcomes w) -> N + 1 < 2 ^ 63 ->
     snd r = None /\ all_executed (outcomes w')).
Proof.
  intros Hc Hc63 Hat. pose proof Hsrc as (HN & _).
  destruct (Z_le_gt_dec c N) as [Hle|Hgt].
  - rewrite Z.mod_small by lia.
    destruct (FormList_at_page 1 w c) as (r & w' & Hf & Hok & Hall);
      [lia | lia | assumption |].
    exists r, w'. split; [exact Hf|]. split; [exact Hok|].
    intros Hex HN63. apply Hall; [assumption | lia].
  - assert (c = N + 1) as -> by lia.
    rewrite Z.mod_same by lia.
    destruct (FormList_at_end w) as (r & w' & Hf & Hok & Hall);
      [lia | assumption |].
    exists r, w'. split; [exact Hf|]. split; [|exact Hall].
    intros Hr. apply Hok in Hr as [-> Htb].
    split; [reflexivity|]. split; [exact Htb | lia].
Qed.

Lemma cycle_from_S c n :
  cycle_from N pages c (S n) =
    ((pages (c mod (N + 1)), None),
     Some (strconv.FormatUint (c mod (N + 1) + 1)))
      :: cycle_from N pages (c mod (N + 1) + 1) n.
Proof.
  pose proof Hsrc as (HN & _).
  unfold cycle_from. cbn [seq map]. rewrite Z.add_0_r. f_equal.
  rewrite <- seq_shift, map_map. apply map_ext. intros k.
  assert (Hk : (c + Z.of_nat (S k)) mod (N + 1)
               = (c mod (N + 1) + 1 + Z.of_nat k) mod (N + 1)).
  { rewrite Nat2Z.inj_succ.
    replace (c mod (N + 1) + 1 + Z.of_nat k)
      with (c mod (N + 1) + (1 + Z.of_nat k)) by lia.
    rewrite Zplus_mod_idemp_l. f_equal. lia. }
  cbn zeta. rewrite Hk. reflexivity.
Qed.

Lemma FormLists_cycle n : forall w c outs w',
  0 <= c <= N + 1 -> c <= 2 ^ 63 ->
  cursor_at (KeyValueKey s) (table w) c ->
  FormLists 2 n s w = Some (outs, w') ->
  (Forall succeeded outs -> outs = cycle_from N pages c n) /\
  (all_executed (outcomes w) -> N + 1 < 2 ^ 63 ->
   outs = cycle_from N pages c n).
Proof.
  pose proof Hsrc as (HN & _).
  induction n as [|n IH]; intros w c outs w' Hc Hc63 Hat Hrun.
  - injection Hrun as <- <-. split; reflexivity.
  - cbn [FormLists] in Hrun.
    destruct (FormList_cycle_step w c Hc Hc63 Hat) as (r & w1 & Hf & Hok & Hall).
    rewrite Hf in Hrun.
    destruct (FormLists 2 n s w1) as [[rest w2]|] eqn:Hrest; [|discriminate].
    injection Hrun as <- <-.
    pose proof (Z.mod_pos_bound c (N + 1) ltac:(lia)) as Hmod.
    assert (Hnext : snd r = None ->
              (r, table w1 !! KeyValueKey s)
              = ((pages (c mod (N + 1)), None),
                 Some (strconv.FormatUint (c mod (N + 1) + 1))) /\
              (Forall succeeded rest ->
               rest = cycle_from N pages (c mod (N + 1) + 1) n) /\
              (all_executed (outcomes w1) -> N + 1 < 2 ^ 63 ->
               rest = cycle_from N pages (c mod (N + 1) + 1) n)).
    { intros Hr. apply Hok in Hr as (-> & Htb & Hlt).
      split; [rewrite Htb; reflexivity|].
      apply (IH w1 (c mod (N + 1) + 1) rest w2); [lia | lia | | assumption].
      left. exact Htb. }
    rewrite cycle_from_S. split.
    + intros Hall1. inversion Hall1 as [|o os Ho Hos]; subst.
      destruct (Hnext Ho) as (-> & Hrest1 & _). f_equal. auto.
    + intros Hex HN63. destruct (Hall Hex HN63) as [Hr Hex1].
      destruct (Hnext Hr) as (-> & _ & Hrest2). f_equal. auto.
Qed.

Lemma FormLists_total n : forall w,
  exists outs w', FormLists 2 n s w = Some (outs, w').
Proof.
  induction n as [|n IH]; intros w; cbn [FormLists]; [eauto|].
  destruct (FormList_two s w) as (r & w1 & _ & -> & _).
  destruct (IH w1) as (rest & w2 & ->). eauto.
Qed.

(** C1.  The source presents the pages [0 .. N], none empty, and an empty
    page at [N + 1]; the cursor starts at 0.  Then calls of [FormList] in
    a row that all succeed return the pages 0, 1, ..., N, 0, 1, ... in
    turn, and each leaves in the table the numeral of the number of the
    page it returned plus one.  When no statement fails and [N + 1] is
    below [2 ^ 63], every call succeeds, so the cycle goes on for any
    number of calls. *)
Theorem FormList_cycles_through_pages w :
  cursor_at (KeyValueKey s) (table w) 0 ->
  (forall n, exists outs w',
      FormLists 2 n s w = Some (outs, w') /\
      (Forall succeeded outs -> outs = cycle_from N pages 0 n)) /\
  (all_executed (outcomes w) -> N + 1 < 2 ^ 63 ->
   forall n, exists w', FormLists 2 n s w = Some (cycle_from N pages 0 n, w')).
Proof.
  intros Hat. pose proof Hsrc as (HN & _). split.
  - intros n. destruct (FormLists_total n w) as (outs & w' & Hrun).
    exists outs, w'. split; [exact Hrun|].
    apply (FormLists_cycle n w 0 outs w'); [lia | lia | assumption | assumption].
  - intros Hex HN63 n. destruct (FormLists_total n w) as (outs & w' & Hrun).
    exists w'. rewrite Hrun. do 2 f_equal.
    apply (FormLists_cycle n w 0 outs w'); [lia | lia | assumption | assumption | assumption | assumption].
Qed.

End Cycle.

(** The scenario of the specification: batch size 2 and the five items
    [a, b, c, d, e].  Four calls return [a, b], [c, d], [e] and [a, b]
    again, and leave the cursors 1, 2, 3 and 1. *)
Lemma FormList_cycles_through_pages_witness :
  exists w',
    FormLists 2 4 (items_streamer ["a"; "b"; "c"; "d"; "e"] 2) (world_with ∅)
    = Some ([((["a"; "b"], None), Some "1");
             ((["c"; "d"], None), Some "2");
             ((["e"], None), Some "3");
             ((["a"; "b"], None), Some "1")], w').
Proof.
  pose (pages := fun i : Z =>
          firstn 2 (skipn (Z.to_nat (i * 2)) ["a"; "b"; "c"; "d"; "e"])).
  assert (Hsrc : presents (items_streamer ["a"; "b"; "c"; "d"; "e"] 2) 2 pages).
  { split; [lia|]. split.
    - intros i e Hi. split; [|reflexivity].
      assert (i = 0 \/ i = 1 \/ i = 2) as [-> | [-> | ->]] by lia; discriminate.
    - intros e. reflexivity. }
  assert (Hat : cursor_at (KeyValueKey (items_streamer ["a"; "b"; "c"; "d"; "e"] 2))
                  (table (world_with ∅)) 0)
    by (right; split; reflexivity).
  assert (HN : 2 + 1 < 2 ^ 63) by reflexivity.
  assert (Hex : all_executed (outcomes (world_with ∅))) by constructor.
  destruct (proj2 (FormList_cycles_through_pages _ 2 pages Hsrc (world_with ∅) Hat)
              Hex HN 4%nat) as [w' Hrun].
  exists w'. exact Hrun.
Defined.

Example FormList_scenario :
  fst <$> FormLists 2 4 (items_streamer ["a"; "b"; "c"; "d"; "e"] 2) (world_with ∅)
  = Some [((["a"; "b"], None), Some "1");
          ((["c"; "d"], None), Some "2");
          ((["e"], None), Some "3");
          ((["a"; "b"], None), Some "1")].
Proof. vm_compute. reflexivity. Qed.

(** * Further properties of the code *)

(** ** The key value querier: writes, reads and failures *)

Section KeyValueMore.
Context {T E : Type}.
Implicit Types (w : World T E) (key : string) (kv : KeyValue).

(** X1.  A row that [Upsert] wrote is read back: when the statement and the
    query that follows are executed, [Get] and [LockingGet] of the key
    return the very [KeyValue] that was upserted, and the rows of all other
    keys are as before. *)
Theorem Upsert_then_Get kv w :
  hd None (outcomes w) = None ->
  hd None (tl (outcomes w)) = None ->
  fst (Upsert kv w) = None /\
  fst (Get (Key kv) (snd (Upsert kv w))) = (Some kv, None) /\
  fst (LockingGet (Key kv) (snd (Upsert kv w))) = (Some kv, None) /\
  (forall key, key <> Key kv ->
     table (snd (Upsert kv w)) !! key = table w !! key).
Proof.
  intros Ho1 Ho2. unfold Get, LockingGet.
  rewrite !get_eq, Upsert_eq. cbn [fst snd table outcomes].
  rewrite Ho1, Ho2. cbn [fmap option_fmap option_map].
  rewrite lookup_insert_eq. destruct kv as [k v]. cbn [Key Value].
  repeat split. intros key Hkey. apply lookup_insert_ne. congruence.
Qed.

(** X2.  [Upsert] overwrites: after two executed upserts at the same key the
    table is the one a single upsert of the second value gives, so the
    last write wins, writing the same row twice changes nothing more, and
    the key has one row. *)
Theorem Upsert_last_write_wins kv1 kv2 w :
  Key kv1 = Key kv2 ->
  hd None (outcomes w) = None ->
  hd None (tl (outcomes w)) = None ->
  table (snd (Upsert kv2 (snd (Upsert kv1 w))))
  = <[Key kv2 := Value kv2]> (table w) /\
  size (table (snd (Upsert kv2 (snd (Upsert kv1 w)))))
  = size (table (snd (Upsert kv1 w))).
Proof.
  intros Hkey Ho1 Ho2. rewrite !Upsert_eq. cbn [fst snd table outcomes].
  rewrite Ho1, Ho2, Hkey. rewrite insert_insert_eq. split; [reflexivity|].
  rewrite !map_size_insert. reflexivity.
Qed.



End KeyValueMore.

Lemma Upsert_then_Get_witness :
  fst (Get "cursor" (snd (Upsert {| Key := "cursor"; Value := "4" |}
                            (world_with (cursor_table "3")))))
  = (Some {| Key := "cursor"; Value := "4" |}, None).
Proof.
  apply (Upsert_then_Get {| Key := "cursor"; Value := "4" |}
           (world_with (cursor_table "3")) eq_refl eq_refl).
Defined.

Lemma Upsert_last_write_wins_witness :
  table (snd (Upsert {| Key := "cursor"; Value := "5" |}
                (snd (Upsert {| Key := "cursor"; Value := "4" |}
                        (world_with (cursor_table "3"))))))
  = <["cursor" := "5"]> (cursor_table "3").
Proof.
  apply (Upsert_last_write_wins {| Key := "cursor"; Value := "4" |}
           {| Key := "cursor"; Value := "5" |}
           (world_with (cursor_table "3")) eq_refl eq_refl eq_refl).
Defined.


(** ** The ways through [FormList], one by one *)

Section FormListPaths.
Context {T E : Type}.
Implicit Types (w : World T E) (s : streamer T E).

(** The page number beside an error of [GetCurrentPage] is 0. *)
Lemma GetCurrentPage_error_zero s w p e :
  fst (GetCurrentPage s w) = (p, Some e) -> p = 0.
Proof.
  unfold GetCurrentPage, LockingGet. rewrite get_eq.
  destruct (hd None (outcomes w)); [cbn; congruence|].
  destruct (table w !! KeyValueKey s); cbn -[strconv.ParseInt].
  all: match goal with
       | |- context [strconv.ParseInt ?v] =>
           destruct (strconv.ParseInt v) as [page [err|]]; [cbn; congruence|]
       end.
  all: destruct (page <? 0); cbn; congruence.
Qed.

(** A stored value that is not the numeral of a page number is refused,
    whether the query is executed or not. *)
Lemma GetCurrentPage_refuses s w v :
  table w !! KeyValueKey s = Some v ->
  (forall m, signed_decimal_value v = Some m -> ~ 0 <= m < 2 ^ 63) ->
  exists e, fst (GetCurrentPage s w) = (0, Some e).
Proof.
  intros Hv Hbad.
  destruct (fst (GetCurrentPage s w)) as [p [e|]] eqn:Hg.
  - rewrite (GetCurrentPage_error_zero s w p e Hg). eauto.
  - apply GetCurrentPage_ok in Hg as (_ & Hsv & Hrange).
    rewrite Hv in Hsv. exfalso. exact (Hbad p Hsv Hrange).
Qed.

(** The cursor could not be read: nothing else is done. *)
Lemma FormList_unreadable_eq s w d p e :
  fst (GetCurrentPage s w) = (p, Some e) ->
  FormList (S d) s w =
    Some (([], Some (errors.Wrap e "failed to get current page number" [])),
          {| table := table w; outcomes := tl (outcomes w); env := env w;
             trace := trace w ++ [EvQuery (KeyValueKey s) true] |}).
Proof.
  intros Hg. FormList_body Hg' Hsel Hup; cbn [fst] in *; simplify_eq.
  reflexivity.
Qed.

(** The source failed. *)
Lemma FormList_source_failure_eq s w d p entities e :
  fst (GetCurrentPage s w) = (p, None) ->
  fst (SelectWithPageParams (Stream s)
         {| pgdb.Limit := BatchSize s; pgdb.PageNumber := p |} (env w))
  = (entities, Some e) ->
  FormList (S d) s w =
    Some (([], Some (errors.Wrap e "failed to select entities" [])),
          {| table := table w; outcomes := tl (outcomes w);
             env := snd (SelectWithPageParams (Stream s)
                           {| pgdb.Limit := BatchSize s; pgdb.PageNumber := p |}
                           (env w));
             trace := trace w ++
                        [EvQuery (KeyValueKey s) true;
                         EvSelect {| pgdb.Limit := BatchSize s;
                                     pgdb.PageNumber := p |}] |}).
Proof.
  intros Hg Hsrc. FormList_body Hg' Hsel Hup; cbn [fst] in *; simplify_eq.
  all: same_source; simplify_eq. reflexivity.
Qed.

(** An empty page at page 0. *)
Lemma FormList_empty_first_eq s w d :
  fst (GetCurrentPage s w) = (0, None) ->
  fst (SelectWithPageParams (Stream s)
         {| pgdb.Limit := BatchSize s; pgdb.PageNumber := 0 |} (env w))
  = ([], None) ->
  FormList (S d) s w =
    Some (([], None),
          Warn s "Entities list is empty"
            {| table := table w; outcomes := tl (outcomes w);
               env := snd (SelectWithPageParams (Stream s)
                             {| pgdb.Limit := BatchSize s; pgdb.PageNumber := 0 |}
                             (env w));
               trace := trace w ++
                          [EvQuery (KeyValueKey s) true;
                           EvSelect {| pgdb.Limit := BatchSize s;
                                       pgdb.PageNumber := 0 |}] |}).
Proof.
  intros Hg Hsrc. FormList_body Hg' Hsel Hup; cbn [fst] in *; simplify_eq.
  all: try (same_source; simplify_eq). all: congruence.
Qed.

(** An empty page past page 0: the reset, and what happens next. *)
Lemma FormList_reset_eq s w d p :
  fst (GetCurrentPage s w) = (p, None) ->
  p <> 0 ->
  fst (SelectWithPageParams (Stream s)
         {| pgdb.Limit := BatchSize s; pgdb.PageNumber := p |} (env w))
  = ([], None) ->
  let w3 tb :=
    {| table := tb; outcomes := tl (tl (outcomes w));
       env := snd (SelectWithPageParams (Stream s)
                     {| pgdb.Limit := BatchSize s; pgdb.PageNumber := p |}
                     (env w));
       trace := trace w ++
                  [EvQuery (KeyValueKey s) true;
                   EvSelect {| pgdb.Limit := BatchSize s; pgdb.PageNumber := p |};
                   EvExec {| Key := KeyValueKey s; Value := "0" |}] |} in
  FormList (S d) s w =
    match hd None (tl (outcomes w)) with
    | Some msg =>
        Some (([], Some (errors.Wrap (ErrDatabase msg)
                           "failed to upsert last page" [])),
              w3 (table w))
    | None => FormList d s (w3 (<[KeyValueKey s := "0"]> (table w)))
    end.
Proof.
  intros Hg Hp Hsrc. FormList_body Hg' Hsel Hup; cbn [fst] in *; simplify_eq.
  all: try (same_source; simplify_eq). all: reflexivity.
Qed.

(** A page that is not empty: the cursor moves on. *)
Lemma FormList_advance_eq s w d p page :
  fst (GetCurrentPage s w) = (p, None) ->
  fst (SelectWithPageParams (Stream s)
         {| pgdb.Limit := BatchSize s; pgdb.PageNumber := p |} (env w))
  = (page, None) ->
  page <> [] ->
  let w3 tb :=
    {| table := tb; outcomes := tl (tl (outcomes w));
       env := snd (SelectWithPageParams (Stream s)
                     {| pgdb.Limit := BatchSize s; pgdb.PageNumber := p |}
                     (env w));
       trace := trace w ++
                  [EvQuery (KeyValueKey s) true;
                   EvSelect {| pgdb.Limit := BatchSize s; pgdb.PageNumber := p |};
                   EvExec {| Key := KeyValueKey s;
                             Value := strconv.FormatUint (p + 1) |}] |} in
  FormList (S d) s w =
    match hd None (tl (outcomes w)) with
    | Some msg =>
        Some (([], Some (errors.Wrap (ErrDatabase msg)
                           "failed to update last processed entities" [])),
              w3 (table w))
    | None =>
        Some ((page, None),
              w3 (<[KeyValueKey s := strconv.FormatUint (p + 1)]> (table w)))
    end.
Proof.
  intros Hg Hsrc Hne.
  pose proof (GetCurrentPage_ok s w p Hg) as (_ & _ & Hp).
  FormList_body Hg' Hsel Hup; cbn [fst] in *; simplify_eq.
  all: try congruence.
  all: same_source; simplify_eq.
  all: rewrite Z.mod_small by lia; reflexivity.
Qed.

End FormListPaths.

(** ** The streamer: construction and failures *)

Section StreamerFailures.
Context {T E : Type}.
Implicit Types (w : World T E) (s : streamer T E).

(** X5.  [NewStreamer] replaces only what is missing: without a batch size
    the source is asked for pages of 15 entities, with one it is asked for
    that many, be it 0; without a context the handler is called with the
    background context.  The key, the source and the logger are taken as
    they are. *)
Theorem NewStreamer_defaults (init : StreamerInitParams T E) p w fn t :
  let s := NewStreamer init in
  let pageParams :=
    {| pgdb.Limit := default 15 (init_BatchSize init); pgdb.PageNumber := p |} in
  fst (Select s p w)
  = fst (SelectWithPageParams (init_Stream init) pageParams (env w)) /\
  trace (snd (Select s p w)) = trace w ++ [EvSelect pageParams] /\
  trace (snd (process s fn [t] w))
  = trace w ++ [EvHandle (default Background (init_Ctx init)) t] /\
  KeyValueKey s = init_KeyValueKey init /\
  Log s = init_Log init.
Proof.
  cbn zeta. rewrite Select_eq. cbn [fst snd trace].
  unfold NewStreamer. cbn [Stream BatchSize KeyValueKey Log Ctx].
  assert (Hb : match init_BatchSize init with
               | Some b => b
               | None => defaultBatchSize
               end = default 15 (init_BatchSize init))
    by (destruct (init_BatchSize init); reflexivity).
  assert (Hc : match init_Ctx init with
               | Some c => c
               | None => Background
               end = default Background (init_Ctx init))
    by (destruct (init_Ctx init); reflexivity).
  rewrite Hb. repeat split.
  cbn [process]. unfold call, record. cbn [Ctx table outcomes env trace].
  rewrite Hc.
  destruct (fn _ t (env w)) as [[err|] e]; reflexivity.
Qed.

(** X6.  When the cursor cannot be read (the query fails, or the stored
    value is refused), [FormList] returns no page and that error wrapped;
    the source is not asked, nothing is written and the outside state is as
    before. *)
Theorem FormList_cursor_unreadable s w d p e :
  fst (GetCurrentPage s w) = (p, Some e) ->
  exists w',
    FormList (S d) s w
    = Some (([], Some (ErrWrap e "failed to get current page number" [])), w') /\
    table w' = table w /\
    env w' = env w /\
    trace w' = trace w ++ [EvQuery (KeyValueKey s) true].
Proof.
  intros Hg. rewrite (FormList_unreadable_eq s w d p e Hg).
  eexists. repeat split.
Qed.

(** X7.  A corrupted cursor is never repaired: when the stored value is not
    the numeral of a page number, every call of [FormList], however many
    are made, returns an error and no page, and the stored value stays as
    it is. *)
Theorem FormList_corrupt_cursor_stuck s v n : forall w,
  table w !! KeyValueKey s = Some v ->
  (forall m, signed_decimal_value v = Some m -> ~ 0 <= m < 2 ^ 63) ->
  exists outs w',
    FormLists 2 n s w = Some (outs, w') /\
    length outs = n /\
    Forall (fun o => exists e, o = (([], Some e), Some v)) outs /\
    table w' = table w.
Proof.
  induction n as [|n IH]; intros w Hv Hbad.
  - exists [], w. repeat split. constructor.
  - destruct (GetCurrentPage_refuses s w v Hv Hbad) as [e He].
    cbn [FormLists]. rewrite (FormList_unreadable_eq s w 1 0 e He).
    match goal with
    | |- context [FormLists 2 n s ?w1] =>
        destruct (IH w1 Hv Hbad) as (outs & w' & Hrun & Hlen & Hall & Htb)
    end.
    rewrite Hrun. cbn [table] in *.
    eexists _, w'. split; [reflexivity|]. split; [cbn; congruence|].
    split; [|exact Htb].
    constructor; [|exact Hall]. rewrite Hv. eauto.
Qed.

(** X8.  When the source fails, [FormList] returns that error wrapped and
    no page, even if the source handed entities over beside the error;
    the cursor is not written. *)
Theorem FormList_source_failure s w d p entities e :
  fst (GetCurrentPage s w) = (p, None) ->
  fst (SelectWithPageParams (Stream s)
         {| pgdb.Limit := BatchSize s; pgdb.PageNumber := p |} (env w))
  = (entities, Some e) ->
  exists w',
    FormList (S d) s w
    = Some (([], Some (ErrWrap e "failed to select entities" [])), w') /\
    table w' = table w /\
    trace w' = trace w ++
                 [EvQuery (KeyValueKey s) true;
                  EvSelect {| pgdb.Limit := BatchSize s; pgdb.PageNumber := p |}].
Proof.
  intros Hg Hsrc. rewrite (FormList_source_failure_eq s w d p entities e Hg Hsrc).
  eexists. repeat split.
Qed.

(** X9.  When the upsert that resets the cursor fails, [FormList] returns
    that error wrapped and no page, and does not start again: the cursor is
    read once and the table is unchanged. *)
Theorem FormList_reset_failure s w d p msg :
  fst (GetCurrentPage s w) = (p, None) ->
  p <> 0 ->
  fst (SelectWithPageParams (Stream s)
         {| pgdb.Limit := BatchSize s; pgdb.PageNumber := p |} (env w))
  = ([], None) ->
  hd None (tl (outcomes w)) = Some msg ->
  exists w',
    FormList (S d) s w
    = Some (([], Some (ErrWrap (ErrDatabase msg) "failed to upsert last page" [])),
            w') /\
    table w' = table w /\
    trace w' = trace w ++
                 [EvQuery (KeyValueKey s) true;
                  EvSelect {| pgdb.Limit := BatchSize s; pgdb.PageNumber := p |};
                  EvExec {| Key := KeyValueKey s; Value := "0" |}].
Proof.
  intros Hg Hp Hsrc Ho. rewrite (FormList_reset_eq s w d p Hg Hp Hsrc).
  cbn zeta. rewrite Ho. eexists. repeat split.
Qed.

End StreamerFailures.

Lemma FormList_cursor_unreadable_witness :
  exists w',
    FormList 1 (items_streamer ["a"; "b"] 2)
      (world_failing (cursor_table "1") [Some "connection refused"])
    = Some (([], Some (ErrWrap
                         (ErrWrap (ErrDatabase "connection refused")
                            "failed to get current cursor value"
                            [("key", FString "cursor")])
                         "failed to get current page number" [])), w') /\
    table w' = cursor_table "1".
Proof.
  assert (Hg : fst (GetCurrentPage (items_streamer ["a"; "b"] 2)
                      (world_failing (cursor_table "1") [Some "connection refused"]))
               = (0, Some (ErrWrap (ErrDatabase "connection refused")
                             "failed to get current cursor value"
                             [("key", FString "cursor")])))
    by (vm_compute; reflexivity).
  destruct (FormList_cursor_unreadable _ _ 0 _ _ Hg) as (w' & Hf & Htb & _).
  exists w'. split; [exact Hf | exact Htb].
Defined.

Lemma FormList_corrupt_cursor_stuck_witness :
  exists outs w',
    FormLists 2 3 (items_streamer ["a"; "b"] 2) (world_with (cursor_table "abc"))
    = Some (outs, w') /\
    length outs = 3%nat /\
    Forall (fun o => exists e, o = (([], Some e), Some "abc")) outs /\
    table w' = cursor_table "abc".
Proof.
  assert (Hv : table (world_with (cursor_table "abc"))
                 !! KeyValueKey (items_streamer ["a"; "b"] 2) = Some "abc")
    by (vm_compute; reflexivity).
  apply (FormList_corrupt_cursor_stuck (items_streamer ["a"; "b"] 2) "abc" 3
           (world_with (cursor_table "abc")) Hv).
  intros m Hm. vm_compute in Hm. discriminate Hm.
Defined.

Lemma FormList_source_failure_witness :
  exists w',
    FormList 1 failing_streamer (world_with (cursor_table "4"))
    = Some (([], Some (ErrWrap (ErrOther "source down")
                         "failed to select entities" [])), w') /\
    table w' = cursor_table "4".
Proof.
  assert (Hg : fst (GetCurrentPage failing_streamer (world_with (cursor_table "4")))
               = (4, None)) by (vm_compute; reflexivity).
  destruct (FormList_source_failure failing_streamer
              (world_with (cursor_table "4")) 0 4 [] (ErrOther "source down")
              Hg eq_refl) as (w' & Hf & Htb & _).
  exists w'. split; [exact Hf | exact Htb].
Defined.

Lemma FormList_reset_failure_witness :
  exists w',
    FormList 2 (items_streamer ["a"; "b"] 2)
      (world_failing (cursor_table "1") [None; Some "deadlock"])
    = Some (([], Some (ErrWrap (ErrDatabase "deadlock")
                         "failed to upsert last page" [])), w') /\
    table w' = cursor_table "1".
Proof.
  assert (Hg : fst (GetCurrentPage (items_streamer ["a"; "b"] 2)
                      (world_failing (cursor_table "1") [None; Some "deadlock"]))
               = (1, None)) by (vm_compute; reflexivity).
  destruct (FormList_reset_failure (items_streamer ["a"; "b"] 2)
              (world_failing (cursor_table "1") [None; Some "deadlock"])
              1 1 "deadlock" Hg ltac:(discriminate) eq_refl eq_refl)
    as (w' & Hf & Htb & _).
  exists w'. split; [exact Hf | exact Htb].
Defined.

(** ** The streamer: the end of the source, and the cursor that is stored *)

Section StreamerCursor.
Context {T E : Type}.
Implicit Types (w : World T E) (s : streamer T E).

(** After a reset the cursor is read as 0. *)
Lemma GetCurrentPage_after_reset s w :
  table w !! KeyValueKey s = Some "0" ->
  hd None (outcomes w) = None ->
  fst (GetCurrentPage s w) = (0, None).
Proof.
  intros Hzero Hok. apply (GetCurrentPage_at_ok s w 0); [|lia|assumption].
  left. exact Hzero.
Qed.

(** X10.  Past the end of a source that still has a first page: the empty
    page at cursor [p], [p] not 0, makes [FormList] reset the cursor, read
    it again and return page 0 in the same call; the cursor is left at 1.
    The source is asked twice, once for page [p] and once for page 0. *)
Theorem FormList_wraps_to_first_page s w d p page0 :
  let ask n := {| pgdb.Limit := BatchSize s; pgdb.PageNumber := n |} in
  let e1 := snd (SelectWithPageParams (Stream s) (ask p) (env w)) in
  fst (GetCurrentPage s w) = (p, None) ->
  p <> 0 ->
  fst (SelectWithPageParams (Stream s) (ask p) (env w)) = ([], None) ->
  fst (SelectWithPageParams (Stream s) (ask 0) e1) = (page0, None) ->
  page0 <> [] ->
  hd None (tl (outcomes w)) = None ->
  hd None (tl (tl (outcomes w))) = None ->
  hd None (tl (tl (tl (outcomes w)))) = None ->
  exists w',
    FormList (S (S d)) s w = Some ((page0, None), w') /\
    table w' = <[KeyValueKey s := "1"]> (table w) /\
    trace w' = trace w ++
                 [EvQuery (KeyValueKey s) true;
                  EvSelect (ask p);
                  EvExec {| Key := KeyValueKey s; Value := "0" |};
                  EvQuery (KeyValueKey s) true;
                  EvSelect (ask 0);
                  EvExec {| Key := KeyValueKey s; Value := "1" |}].
Proof.
  intros ask e1 Hg Hp Hempty Hfirst Hne Ho2 Ho3 Ho4.
  rewrite (FormList_reset_eq s w (S d) p Hg Hp Hempty). cbn zeta. rewrite Ho2.
  match goal with
  | |- context [FormList (S d) s ?w3] =>
      assert (Hg0 : fst (GetCurrentPage s w3) = (0, None))
        by (apply GetCurrentPage_after_reset;
            [apply lookup_insert_eq | exact Ho3]);
      rewrite (FormList_advance_eq s w3 d 0 page0 Hg0 Hfirst Hne)
  end.
  cbn zeta. cbn [table outcomes env trace]. rewrite Ho4.
  eexists. split; [reflexivity|]. cbn [table trace].
  split; [apply insert_insert_eq|].
  rewrite <- app_assoc. reflexivity.
Qed.

(** X11.  Past the end of a source that has become empty: [FormList] resets
    the cursor, reads it again, finds page 0 empty and returns an empty
    page without error.  Unlike a call that starts at page 0, this one has
    written: the cursor row holds ["0"]. *)
Theorem FormList_source_became_empty s w d p :
  let ask n := {| pgdb.Limit := BatchSize s; pgdb.PageNumber := n |} in
  let e1 := snd (SelectWithPageParams (Stream s) (ask p) (env w)) in
  fst (GetCurrentPage s w) = (p, None) ->
  p <> 0 ->
  fst (SelectWithPageParams (Stream s) (ask p) (env w)) = ([], None) ->
  fst (SelectWithPageParams (Stream s) (ask 0) e1) = ([], None) ->
  hd None (tl (outcomes w)) = None ->
  hd None (tl (tl (outcomes w))) = None ->
  exists w',
    FormList (S (S d)) s w = Some (([], None), w') /\
    table w' = <[KeyValueKey s := "0"]> (table w) /\
    List.filter is_write (skipn (length (trace w)) (trace w'))
    = [EvExec {| Key := KeyValueKey s; Value := "0" |}].
Proof.
  intros ask e1 Hg Hp Hempty Hfirst Ho2 Ho3.
  rewrite (FormList_reset_eq s w (S d) p Hg Hp Hempty). cbn zeta. rewrite Ho2.
  match goal with
  | |- context [FormList (S d) s ?w3] =>
      assert (Hg0 : fst (GetCurrentPage s w3) = (0, None))
        by (apply GetCurrentPage_after_reset;
            [apply lookup_insert_eq | exact Ho3]);
      rewrite (FormList_empty_first_eq s w3 d Hg0 Hfirst)
  end.
  eexists. split; [reflexivity|].
  unfold Warn, record. destruct (Log s); cbn [table outcomes env trace].
  all: split; [reflexivity|].
  all: rewrite <- ?app_assoc; rewrite drop_app_length; reflexivity.
Qed.

(** What a call that ends leaves behind, whatever way it took. *)
Lemma FormList_post d : forall s w entities err w',
  FormList d s w = Some ((entities, err), w') ->
  (err <> None -> entities = []) /\
  (entities <> [] ->
   err = None /\
   exists p, 0 <= p < 2 ^ 63 /\
             table w' !! KeyValueKey s = Some (strconv.FormatUint (p + 1))) /\
  (err = None -> entities = [] ->
   table w' = table w \/ table w' = <[KeyValueKey s := "0"]> (table w)).
Proof.
  induction d as [|d IH]; intros s w entities err w'; [discriminate|].
  FormList_body Hg Hsel Hup.
  3: unfold Warn, record; destruct (Log s); cbn [table outcomes env trace].
  6: { intros Hrec. apply IH in Hrec as (Herr & Hpage & Hempty).
       cbn [table] in *. split; [exact Herr|]. split; [exact Hpage|].
       intros He Hnil. right.
       destruct (Hempty He Hnil) as [-> | ->];
         [reflexivity | apply insert_insert_eq]. }
  all: intros [= <- <- <-]; cbn [table].
  all: split; [try reflexivity; try congruence|].
  all: split; [try congruence | try (intros _ _; left; reflexivity);
                                try discriminate].
  intros _. split; [reflexivity|].
  apply GetCurrentPage_ok in Hr as (_ & _ & Hp).
  exists p. split; [exact Hp|].
  rewrite Z.mod_small by lia. apply lookup_insert_eq.
Qed.

(** X12.  Every call of [FormList] ends, and what it returns and what it
    stores go together: entities never come with an error; when entities
    are returned the cursor row holds the numeral of a page number plus
    one, that is, the cursor has been moved before the caller sees the
    page; when an empty page is returned without error the table is as
    before or the cursor has been reset to ["0"]. *)
Theorem FormList_result_and_cursor s w k :
  exists entities err w',
    FormList (k + 2) s w = Some ((entities, err), w') /\
    (err <> None -> entities = []) /\
    (entities <> [] ->
     err = None /\
     exists p, 0 <= p < 2 ^ 63 /\
               table w' !! KeyValueKey s = Some (strconv.FormatUint (p + 1))) /\
    (err = None -> entities = [] ->
     table w' = table w \/ table w' = <[KeyValueKey s := "0"]> (table w)).
Proof.
  destruct (FormList_two s w) as ([entities err] & w' & new & Hf & _).
  apply (FormList_more _ k) in Hf.
  exists entities, err, w'. split; [exact Hf|].
  exact (FormList_post _ _ _ _ _ _ Hf).
Qed.

(** X13.  The cursor [FormList] writes is the cursor [GetCurrentPage] reads:
    after a page [p] that is not empty, with [p + 1] below [2 ^ 63], the
    next [GetCurrentPage] returns [p + 1]. *)
Theorem FormList_cursor_round_trip s w d p page :
  fst (GetCurrentPage s w) = (p, None) ->
  fst (SelectWithPageParams (Stream s)
         {| pgdb.Limit := BatchSize s; pgdb.PageNumber := p |} (env w))
  = (page, None) ->
  page <> [] ->
  p + 1 < 2 ^ 63 ->
  hd None (tl (outcomes w)) = None ->
  hd None (tl (tl (outcomes w))) = None ->
  exists w',
    FormList (S d) s w = Some ((page, None), w') /\
    fst (GetCurrentPage s w') = (p + 1, None).
Proof.
  intros Hg Hsrc Hne Hp1 Ho2 Ho3.
  pose proof (GetCurrentPage_ok s w p Hg) as (_ & _ & Hp).
  rewrite (FormList_advance_eq s w d p page Hg Hsrc Hne). cbn zeta. rewrite Ho2.
  eexists. split; [reflexivity|].
  apply GetCurrentPage_at_ok; [|lia|exact Ho3].
  left. cbn [table]. apply lookup_insert_eq.
Qed.

(** X14.  The largest page number: at cursor [2 ^ 63 - 1] a page that is
    not empty is returned and the numeral of [2 ^ 63] is stored, which
    [GetCurrentPage] refuses: the next call of [FormList] fails, whatever
    the database and the source do, and leaves the table as it is. *)
Theorem FormList_cursor_overflow s w d page :
  fst (GetCurrentPage s w) = (2 ^ 63 - 1, None) ->
  fst (SelectWithPageParams (Stream s)
         {| pgdb.Limit := BatchSize s; pgdb.PageNumber := 2 ^ 63 - 1 |} (env w))
  = (page, None) ->
  page <> [] ->
  hd None (tl (outcomes w)) = None ->
  exists w',
    FormList (S d) s w = Some ((page, None), w') /\
    table w' !! KeyValueKey s = Some "9223372036854775808" /\
    (exists e, fst (GetCurrentPage s w') = (0, Some e)) /\
    (forall d', exists e w'',
        FormList (S d') s w' = Some (([], Some e), w'') /\
        table w'' = table w').
Proof.
  intros Hg Hsrc Hne Ho2.
  rewrite (FormList_advance_eq s w d _ page Hg Hsrc Hne). cbn zeta. rewrite Ho2.
  change (strconv.FormatUint (2 ^ 63 - 1 + 1)) with "9223372036854775808".
  eexists. split; [reflexivity|].
  assert (Hbad : forall m, signed_decimal_value "9223372036854775808" = Some m ->
                           ~ 0 <= m < 2 ^ 63).
  { intros m Hm. vm_compute in Hm. injection Hm as <-. lia. }
  match goal with
  | |- ?tb !! _ = _ /\ _ => assert (Hv : tb !! KeyValueKey s = Some "9223372036854775808")
      by (cbn [table]; apply lookup_insert_eq)
  end.
  destruct (GetCurrentPage_refuses s _ _ Hv Hbad) as [e He].
  split; [exact Hv|]. split; [eauto|].
  intros d'. rewrite (FormList_unreadable_eq s _ d' 0 e He).
  eexists _, _. split; reflexivity.
Qed.

End StreamerCursor.

Lemma FormList_wraps_to_first_page_witness :
  exists w',
    FormList 2 (items_streamer ["a"; "b"; "c"] 2) (world_with (cursor_table "2"))
    = Some ((["a"; "b"], None), w') /\
    table w' = <["cursor" := "1"]> (cursor_table "2").
Proof.
  assert (Hg : fst (GetCurrentPage (items_streamer ["a"; "b"; "c"] 2)
                      (world_with (cursor_table "2"))) = (2, None))
    by (vm_compute; reflexivity).
  destruct (FormList_wraps_to_first_page (items_streamer ["a"; "b"; "c"] 2)
              (world_with (cursor_table "2")) 0 2 ["a"; "b"]
              Hg ltac:(discriminate) eq_refl eq_refl ltac:(discriminate)
              eq_refl eq_refl eq_refl)
    as (w' & Hf & Htb & _).
  exists w'. split; [exact Hf | exact Htb].
Defined.

Lemma FormList_source_became_empty_witness :
  exists w',
    FormList 2 (items_streamer [] 2) (world_with (cursor_table "2"))
    = Some (([], None), w') /\
    table w' = <["cursor" := "0"]> (cursor_table "2").
Proof.
  assert (Hg : fst (GetCurrentPage (items_streamer [] 2)
                      (world_with (cursor_table "2"))) = (2, None))
    by (vm_compute; reflexivity).
  destruct (FormList_source_became_empty (items_streamer [] 2)
              (world_with (cursor_table "2")) 0 2
              Hg ltac:(discriminate) eq_refl eq_refl eq_refl eq_refl)
    as (w' & Hf & Htb & _).
  exists w'. split; [exact Hf | exact Htb].
Defined.

Lemma FormList_cursor_round_trip_witness :
  exists w',
    FormList 1 (items_streamer ["a"; "b"; "c"] 2) (world_with ∅)
    = Some ((["a"; "b"], None), w') /\
    fst (GetCurrentPage (items_streamer ["a"; "b"; "c"] 2) w') = (0 + 1, None).
Proof.
  assert (Hg : fst (GetCurrentPage (items_streamer ["a"; "b"; "c"] 2)
                      (world_with ∅)) = (0, None))
    by (vm_compute; reflexivity).
  assert (Hp : 0 + 1 < 2 ^ 63) by reflexivity.
  exact (FormList_cursor_round_trip (items_streamer ["a"; "b"; "c"] 2)
           (world_with ∅) 0 0 ["a"; "b"]
           Hg eq_refl ltac:(discriminate) Hp eq_refl eq_refl).
Defined.

Lemma FormList_cursor_overflow_witness :
  exists w',
    FormList 1 (constant_streamer ["x"])
      (world_with (cursor_table "9223372036854775807"))
    = Some ((["x"], None), w') /\
    table w' !! "cursor" = Some "9223372036854775808" /\
    (exists e, fst (GetCurrentPage (constant_streamer ["x"]) w') = (0, Some e)).
Proof.
  assert (Hg : fst (GetCurrentPage (constant_streamer ["x"])
                      (world_with (cursor_table "9223372036854775807")))
               = (2 ^ 63 - 1, None))
    by (vm_compute; reflexivity).
  destruct (FormList_cursor_overflow (constant_streamer ["x"])
              (world_with (cursor_table "9223372036854775807")) 0 ["x"]
              Hg eq_refl ltac:(discriminate) eq_refl)
    as (w' & Hf & Htb & Hread & _).
  exists w'. split; [exact Hf|]. split; [exact Htb | exact Hread].
Defined.

(** ** [FormListAndProcess], the statements of [FormList], and the earlier
    revision *)

Section ProcessMore.
Context {T E : Type}.
Implicit Types (w : World T E) (s : streamer T E) (fn : Handler T E).


(** [FormList] does not call a handler. *)
Lemma FormList_no_handler d : forall s w r w',
  FormList d s w = Some (r, w') ->
  exists new, trace w' = trace w ++ new /\ handled new = [].
Proof.
  induction d as [|d IH]; intros s w r w'; [discriminate|].
  FormList_body Hg Hsel Hup.
  3: unfold Warn, record; destruct (Log s); cbn [table outcomes env trace];
     rewrite <- ?app_assoc; cbn [app].
  6: { intros Hrec. apply IH in Hrec as (new & Htr & Hh).
       cbn [trace] in Htr. rewrite <- app_assoc in Htr. cbn [app] in Htr.
       eexists. split; [exact Htr|]. cbn [handled]. exact Hh. }
  all: intros [= <- <-]; cbn [trace].
  all: eexists; split; reflexivity.
Qed.

(** X15.  When [FormList] fails, [FormListAndProcess] returns its error
    wrapped once more and stops there: the world is the one [FormList]
    left, and no handler call was made. *)
Theorem FormListAndProcess_list_failure s fn d w entities e w1 :
  FormList d s w = Some ((entities, Some e), w1) ->
  FormListAndProcess d s fn w
  = Some (Some (ErrWrap e "failed to form a list of entities" []), w1) /\
  exists new, trace w1 = trace w ++ new /\ handled new = [].
Proof.
  intros Hf. split.
  - unfold FormListAndProcess. rewrite Hf. reflexivity.
  - exact (FormList_no_handler d s w _ _ Hf).
Qed.


(** Every query of a call is the locking query of the cursor key, and the
    call starts with one. *)
Lemma FormList_queries d : forall s w r w',
  FormList d s w = Some (r, w') ->
  exists rest,
    trace w' = trace w ++ EvQuery (KeyValueKey s) true :: rest /\
    (forall key forUpdate,
        In (EvQuery key forUpdate) rest ->
        key = KeyValueKey s /\ forUpdate = true).
Proof.
  induction d as [|d IH]; intros s w r w'; [discriminate|].
  FormList_body Hg Hsel Hup.
  3: unfold Warn, record; destruct (Log s); cbn [table outcomes env trace];
     rewrite <- ?app_assoc; cbn [app].
  6: { intros Hrec. apply IH in Hrec as (rest & Htr & Hq).
       cbn [trace] in Htr. rewrite <- app_assoc in Htr. cbn [app] in Htr.
       eexists. split; [exact Htr|].
       intros key fu [Hin|[Hin|[Hin|Hin]]]; try discriminate.
       - injection Hin as <- <-. split; reflexivity.
       - apply Hq, Hin. }
  all: intros [= <- <-]; cbn [trace].
  all: eexists; split; [reflexivity|].
  all: intros key fu Hin; cbn [In] in Hin;
    repeat (destruct Hin as [Hin|Hin]; try discriminate Hin);
    contradiction.
Qed.

(** X17.  [FormList] reads the cursor under the row lock, first thing: the
    first statement of every call is the query of the cursor key with
    [FOR UPDATE], and the call sends no query without it and none of
    another key. *)
Theorem FormList_reads_under_lock s w k :
  exists r w' rest,
    FormList (k + 2) s w = Some (r, w') /\
    trace w' = trace w ++ EvQuery (KeyValueKey s) true :: rest /\
    (forall key forUpdate,
        In (EvQuery key forUpdate) rest ->
        key = KeyValueKey s /\ forUpdate = true).
Proof.
  destruct (FormList_two s w) as (r & w' & new & Hf & _).
  apply (FormList_more _ k) in Hf.
  destruct (FormList_queries _ _ _ _ _ Hf) as (rest & Htr & Hq).
  exists r, w', rest. split; [exact Hf|]. split; [exact Htr | exact Hq].
Qed.

(** X18.  The earlier revision of [FormList] (struct [Streamer], field
    [KeyQ]) returns, in every world and at every depth from 2 on, what the
    current [FormList] returns for the streamer with the same source, key,
    batch size and logger: it ends as well, and what is proved of the
    current revision holds of it. *)
Theorem Legacy_FormList_agrees (s : Legacy.Streamer T E) w k :
  exists r w',
    Legacy.FormList (k + 2) s w = Some (r, w') /\
    FormList (k + 2) (Legacy.current s) w = Some (r, w').
Proof.
  destruct (FormList_two (Legacy.current s) w) as (r & w' & new & Hf & _).
  apply (FormList_more _ k) in Hf.
  exists r, w'. split; [|exact Hf].
  rewrite Legacy_FormList_current. exact Hf.
Qed.

(** X19.  An empty source is no error for [FormListAndProcess]: at page 0
    with an empty page 0 it returns [nil], calls no handler and writes
    nothing. *)
Theorem FormListAndProcess_empty_source s fn w d :
  fst (GetCurrentPage s w) = (0, None) ->
  fst (SelectWithPageParams (Stream s)
         {| pgdb.Limit := BatchSize s; pgdb.PageNumber := 0 |} (env w))
  = ([], None) ->
  exists w' new,
    FormListAndProcess (S d) s fn w = Some (None, w') /\
    table w' = table w /\
    trace w' = trace w ++ new /\
    handled new = [] /\
    List.filter is_write new = [].
Proof.
  intros Hg Hsrc. unfold FormListAndProcess.
  rewrite (FormList_empty_first_eq s w d Hg Hsrc). cbn [process].
  unfold Warn, record. destruct (Log s); cbn [table outcomes env trace];
    rewrite <- ?app_assoc; cbn [app].
  all: eexists _, _; split; [reflexivity|]; split; [reflexivity|].
  all: split; [reflexivity|]; split; reflexivity.
Qed.

(** A stored value that is the numeral of a page number is read as that
    number, with or without a sign or leading zeros. *)
Lemma GetCurrentPage_reads s w v n :
  table w !! KeyValueKey s = Some v ->
  hd None (outcomes w) = None ->
  signed_decimal_value v = Some n ->
  0 <= n < 2 ^ 63 ->
  fst (GetCurrentPage s w) = (n, None).
Proof.
  intros Hv Hok Hn Hrange. rewrite GetCurrentPage_read by assumption.
  rewrite Hv. unfold default, from_option, id. cbn zeta.
  pose proof (ParseInt_spec v) as Hspec. unfold int_outcome in Hspec.
  rewrite Hn in Hspec.
  destruct ((- 2 ^ 63 <=? n) && (n <? 2 ^ 63)) eqn:Hin.
  - rewrite Hspec. destruct (Z.ltb_spec n 0); [lia | reflexivity].
  - apply andb_false_iff in Hin as [H|H];
      [apply Z.leb_gt in H | apply Z.ltb_ge in H]; lia.
Qed.

(** X20.  A cursor that was not written by the streamer is put in canonical
    form by the next advance: a stored value with a sign or leading zeros
    that is the numeral of a page number [n] is accepted, and after a page
    that is not empty the row holds the plain decimal numeral of [n + 1],
    the one [FormatUint] writes and [decimal_value] reads back. *)
Theorem FormList_rewrites_cursor s w d v n page :
  table w !! KeyValueKey s = Some v ->
  signed_decimal_value v = Some n ->
  0 <= n < 2 ^ 63 ->
  fst (SelectWithPageParams (Stream s)
         {| pgdb.Limit := BatchSize s; pgdb.PageNumber := n |} (env w))
  = (page, None) ->
  page <> [] ->
  hd None (outcomes w) = None ->
  hd None (tl (outcomes w)) = None ->
  exists w',
    FormList (S d) s w = Some ((page, None), w') /\
    table w' !! KeyValueKey s = Some (strconv.FormatUint (n + 1)) /\
    decimal_value (strconv.FormatUint (n + 1)) = Some (n + 1).
Proof.
  intros Hv Hn Hrange Hsrc Hne Ho1 Ho2.
  pose proof (GetCurrentPage_reads s w v n Hv Ho1 Hn Hrange) as Hg.
  rewrite (FormList_advance_eq s w d n page Hg Hsrc Hne). cbn zeta. rewrite Ho2.
  eexists. split; [reflexivity|]. cbn [table]. split.
  - apply lookup_insert_eq.
  - apply FormatUint_decimal. unfold strconv.maxUint64. lia.
Qed.

End ProcessMore.

Lemma FormListAndProcess_list_failure_witness :
  FormListAndProcess 1 failing_streamer (fail_on "a") (world_with (cursor_table "4"))
  = Some (Some (ErrWrap
                  (ErrWrap (ErrOther "source down") "failed to select entities" [])
                  "failed to form a list of entities" []),
          {| table := cursor_table "4"; outcomes := []; env := tt;
             trace := [EvQuery "cursor" true;
                       EvSelect {| pgdb.Limit := 15; pgdb.PageNumber := 4 |}] |}).
Proof.
  assert (Hf : FormList 1 failing_streamer (world_with (cursor_table "4"))
               = Some (([], Some (ErrWrap (ErrOther "source down")
                                    "failed to select entities" [])),
                       {| table := cursor_table "4"; outcomes := []; env := tt;
                          trace := [EvQuery "cursor" true;
                                    EvSelect {| pgdb.Limit := 15;
                                                pgdb.PageNumber := 4 |}] |}))
    by (vm_compute; reflexivity).
  exact (proj1 (FormListAndProcess_list_failure failing_streamer (fail_on "a")
                  1 _ _ _ _ Hf)).
Defined.


Lemma FormListAndProcess_empty_source_witness :
  exists w' new,
    FormListAndProcess 1 (items_streamer [] 2) (fail_on "a") (world_with ∅)
    = Some (None, w') /\
    table w' = table (world_with ∅) /\
    trace w' = trace (world_with ∅) ++ new /\
    handled new = [] /\
    List.filter is_write new = [].
Proof.
  assert (Hg : fst (GetCurrentPage (items_streamer [] 2) (world_with ∅))
               = (0, None)) by (vm_compute; reflexivity).
  exact (FormListAndProcess_empty_source (items_streamer [] 2) (fail_on "a")
           (world_with ∅) 0 Hg eq_refl).
Defined.

(** The cursor ["+007"] is read as page 7, and rewritten as ["8"]. *)
Lemma FormList_rewrites_cursor_witness :
  exists w',
    FormList 1 (constant_streamer ["x"]) (world_with (cursor_table "+007"))
    = Some ((["x"], None), w') /\
    table w' !! "cursor" = Some "8".
Proof.
  assert (Hv : table (world_with (cursor_table "+007"))
                 !! KeyValueKey (constant_streamer ["x"]) = Some "+007")
    by (vm_compute; reflexivity).
  assert (Hn : signed_decimal_value "+007" = Some 7) by (vm_compute; reflexivity).
  assert (Hr : 0 <= 7 < 2 ^ 63) by (split; [lia | reflexivity]).
  destruct (FormList_rewrites_cursor (constant_streamer ["x"])
              (world_with (cursor_table "+007")) 0 "+007" 7 ["x"]
              Hv Hn Hr eq_refl ltac:(discriminate) eq_refl eq_refl)
    as (w' & Hf & Htb & _).
  exists w'. split; [exact Hf | exact Htb].
Defined.

(** ** The cost of a call, and streamers side by side *)

Section Budget.
Context {T E : Type}.
Implicit Types (w : World T E) (s : streamer T E).

(** From a stored cursor ["0"]: one round, of three events at most. *)
Lemma FormList_after_reset_budget s w d :
  table w !! KeyValueKey s = Some "0" ->
  exists r w' new,
    FormList (S d) s w = Some (r, w') /\
    trace w' = trace w ++ new /\
    (length new <= 3)%nat /\
    (length (List.filter is_select new) <= 1)%nat /\
    (length (List.filter is_write new) <= 1)%nat.
Proof.
  intros Hzero.
  FormList_body Hg Hsel Hup;
    try (apply (GetCurrentPage_zero s w _ Hzero) in Hr; subst p);
    try congruence.
  3: unfold Warn, record; destruct (Log s); cbn [table outcomes env trace];
     rewrite <- ?app_assoc; cbn [app].
  all: eexists _, _, _; split; [reflexivity|]; split; [reflexivity|].
  all: cbn; lia.
Qed.

(** X21.  What a call of [FormList] costs at most: two requests to the
    source and two upserts, and six events in all (the two locking reads
    of the cursor included), in every world. *)
Theorem FormList_budget s w k :
  exists r w' new,
    FormList (k + 2) s w = Some (r, w') /\
    trace w' = trace w ++ new /\
    (length new <= 6)%nat /\
    (length (List.filter is_select new) <= 2)%nat /\
    (length (List.filter is_write new) <= 2)%nat.
Proof.
  assert (H2 : exists r w' new,
             FormList 2 s w = Some (r, w') /\
             trace w' = trace w ++ new /\
             (length new <= 6)%nat /\
             (length (List.filter is_select new) <= 2)%nat /\
             (length (List.filter is_write new) <= 2)%nat).
  { FormList_body Hg Hsel Hup.
    3: unfold Warn, record; destruct (Log s); cbn [table outcomes env trace];
       rewrite <- ?app_assoc; cbn [app].
    6: { match goal with
         | |- context [FormList 1 s ?w1] =>
             destruct (FormList_after_reset_budget s w1 0)
               as (r & w' & new & Hf & Htr & Hlen & Hs & Hw)
         end.
         { cbn [table]. apply lookup_insert_eq. }
         cbn [trace] in Htr. rewrite <- app_assoc in Htr. cbn [app] in Htr.
         eexists r, w', _. split; [exact Hf|]. split; [exact Htr|].
         cbn [List.filter is_select is_write length]. lia. }
    all: eexists _, _, _; split; [reflexivity|]; split; [reflexivity|].
    all: cbn; lia. }
  destruct H2 as (r & w' & new & Hf & Hrest).
  exists r, w', new. split; [|exact Hrest].
  apply FormList_more, Hf.
Qed.

(** A call in a world where no statement fails leaves such a world. *)
Lemma FormList_all_executed d : forall s w r w',
  all_executed (outcomes w) ->
  FormList d s w = Some (r, w') ->
  all_executed (outcomes w').
Proof.
  induction d as [|d IH]; intros s w r w' Hex; [discriminate|].
  pose proof (all_executed_tl _ Hex) as Hex1.
  pose proof (all_executed_tl _ Hex1) as Hex2.
  FormList_body Hg Hsel Hup.
  3: unfold Warn, record; destruct (Log s); cbn [table outcomes env trace].
  6: { apply IH. exact Hex2. }
  all: intros [= <- <-]; cbn [outcomes]; assumption.
Qed.

(** X22.  Streamers with different cursor keys on one table do not disturb
    each other: after any call of [FormList] of [s1], a streamer [s2] whose
    source presents the pages [0 .. N] and whose cursor is at [c] still
    gets the page of its cursor, and its cursor moves on from there. *)
Theorem FormList_other_key_undisturbed s1 s2 N (pages : Z -> list T) w c :
  KeyValueKey s1 <> KeyValueKey s2 ->
  presents s2 N pages ->
  0 <= c <= N + 1 -> N + 1 < 2 ^ 63 ->
  cursor_at (KeyValueKey s2) (table w) c ->
  all_executed (outcomes w) ->
  exists r1 w1 w2,
    FormList 2 s1 w = Some (r1, w1) /\
    FormList 2 s2 w1 = Some ((pages (c mod (N + 1)), None), w2) /\
    table w2 !! KeyValueKey s2
    = Some (strconv.FormatUint (c mod (N + 1) + 1)).
Proof.
  intros Hkeys Hsrc Hc HN Hat Hex.
  destruct (FormList_two s1 w) as (r1 & w1 & new & Hf1 & _).
  pose proof (FormList_all_executed _ _ _ _ _ Hex Hf1) as Hex1.
  assert (Hsame : table w1 !! KeyValueKey s2 = table w !! KeyValueKey s2).
  { destruct (FormList_writes _ _ _ _ _ Hf1) as (_ & _ & _ & [-> | (kv & _ & ->)]);
      [reflexivity|].
    apply lookup_insert_ne. exact Hkeys. }
  assert (Hat1 : cursor_at (KeyValueKey s2) (table w1) c).
  { unfold cursor_at in *. rewrite Hsame. exact Hat. }
  destruct (FormList_cycle_step s2 N pages Hsrc w1 c Hc ltac:(lia) Hat1)
    as (r2 & w2 & Hf2 & Hok & Hall).
  destruct (Hall Hex1 HN) as [Hr2 _].
  destruct (Hok Hr2) as (-> & Htb & _).
  exists r1, w1, w2. repeat split; assumption.
Qed.

End Budget.

(** Two streamers on one table: [s1] over [a, b] with key ["cursor"], and
    [s2] with key ["other"] and its cursor at page 1. *)
Lemma FormList_other_key_undisturbed_witness :
  exists r1 w1 w2,
    FormList 2 (items_streamer ["a"; "b"] 2)
      (world_with (<["other" := "1"]> (cursor_table "0"))) = Some (r1, w1) /\
    FormList 2
      (NewStreamer {| init_Stream := slice_source ["p"; "q"; "r"];
                      init_KeyValueKey := "other";
                      init_BatchSize := Some 2;
                      init_Log := None;
                      init_Ctx := None |}) w1
    = Some ((["r"], None), w2).
Proof.
  pose (s2 := NewStreamer {| init_Stream := slice_source ["p"; "q"; "r"];
                             init_KeyValueKey := "other";
                             init_BatchSize := Some 2;
                             init_Log := None;
                             init_Ctx := None |}).
  pose (pages := fun i : Z => firstn 2 (skipn (Z.to_nat (i * 2)) ["p"; "q"; "r"])).
  assert (Hsrc : presents s2 1 pages).
  { split; [lia|]. split.
    - intros i e Hi. split; [|reflexivity].
      assert (i = 0 \/ i = 1) as [-> | ->] by lia; discriminate.
    - intros e. reflexivity. }
  assert (Hat : cursor_at (KeyValueKey s2)
                  (table (world_with (<["other" := "1"]> (cursor_table "0")))) 1)
    by (left; vm_compute; reflexivity).
  assert (Hex : all_executed
                  (outcomes (world_with (<["other" := "1"]> (cursor_table "0")))))
    by constructor.
  assert (HN : 1 + 1 < 2 ^ 63) by reflexivity.
  destruct (FormList_other_key_undisturbed (items_streamer ["a"; "b"] 2) s2 1 pages
              (world_with (<["other" := "1"]> (cursor_table "0"))) 1
              ltac:(discriminate) Hsrc ltac:(lia) HN Hat Hex)
    as (r1 & w1 & w2 & Hf1 & Hf2 & _).
  exists r1, w1, w2. split; [exact Hf1 | exact Hf2].
Defined.
